(** * Checkpoints of the GraphQL replication (crawling-checkpoint.ts)

    A shallow embedding of
    [src/plugins/replication-graphql/crawling-checkpoint.ts]: the push
    checkpoint (a sequence cursor kept in a local document), the pull
    checkpoint (the last pulled document kept in a local document) and the
    selection of the next batch of changes to push.

    The asynchronous functions of the module run one store call after the
    other; they are embedded in a state-and-exception monad over the local
    documents store, which also keeps the list of store calls made. *)

From Stdlib Require Import ZArith Lia Sorted.
From stdpp Require Import gmap strings list fin_maps pretty.

Set Warnings "-register-all".

Open Scope string_scope.
Open Scope Z_scope.

(** ** JavaScript values and documents *)

(** The values a document can hold. A missing field reads as [JUndefined].
    The numbers of the module are sequence numbers and field values of
    documents; they are taken to be integers. [JInherited name] is what a
    plain object hands out for a property it does not own but inherits from
    [Object.prototype]: a function, or the prototype itself. *)
Inductive JsVal : Type :=
  | JUndefined
  | JNull
  | JBool (b : bool)
  | JNum (n : Z)
  | JStr (s : string)
  | JObj (fields : gmap string JsVal)
  | JInherited (name : string).

(** A document body, as PouchDB hands it out: a JavaScript object. *)
Abbreviation Doc := (gmap string JsVal).

(** [doc.field], for the fixed names the module reads ([_id], [_rev],
    [_deleted], [value], [doc]), none of which [Object.prototype] has. *)
Definition get_field (d : Doc) (field : string) : JsVal :=
  default JUndefined (d !! field).

(** The property names of [Object.prototype]. *)
Definition object_prototype : list string :=
  [ "constructor"; "hasOwnProperty"; "isPrototypeOf"; "propertyIsEnumerable";
    "toLocaleString"; "toString"; "valueOf"; "__proto__";
    "__defineGetter__"; "__defineSetter__"; "__lookupGetter__";
    "__lookupSetter__" ].

(** [doc[field]] for a computed name: the own property if there is one,
    else the property inherited from [Object.prototype], else [undefined]. *)
Definition get_property (d : Doc) (field : string) : JsVal :=
  match d !! field with
  | Some v => v
  | None =>
      if bool_decide (field ∈ object_prototype)
      then JInherited field
      else JUndefined
  end.

(** JavaScript truthiness, for [if (value)]. *)
Definition truthy (v : JsVal) : bool :=
  match v with
  | JUndefined | JNull => false
  | JBool b => b
  | JNum n => negb (Z.eqb n 0)
  | JStr s => negb (String.eqb s "")
  | JObj _ => true
  | JInherited _ => true
  end.

(** [a === b]. Primitives compare by value. Two objects are equal only when
    they are the same reference; the objects met here are fields read from a
    parsed document, which never share a reference with the [_rev] string
    they are compared with. Two inherited properties are the same value when
    they are the same property. *)
Definition strict_eq (a b : JsVal) : bool :=
  match a, b with
  | JUndefined, JUndefined => true
  | JNull, JNull => true
  | JBool x, JBool y => Bool.eqb x y
  | JNum x, JNum y => Z.eqb x y
  | JStr x, JStr y => String.eqb x y
  | JInherited x, JInherited y => String.eqb x y
  | _, _ => false
  end.

(** [s.startsWith(p)]. *)
Definition startsWith (s p : string) : bool := String.prefix p s.

(** ** Rows of the change feed and of [bulkGet] *)

(** [PouchChangeRow & PouchChangeDoc]: one row of [changes.results], read
    with [include_docs: true]. The rows rebuilt from a [bulkGet] answer carry
    no [seq]. *)
Record PouchChangeRow : Type := mkRow {
  row_id : string;
  row_seq : option Z;
  row_deleted : JsVal;
  row_doc : Doc
}.

(** [PouchdbChangesResult]. *)
Record PouchdbChangesResult : Type := mkChanges {
  results : list PouchChangeRow;
  last_seq : Z
}.

(** One element of the [docs] argument of [bulkGet]. *)
Record DocSearch : Type := mkSearch {
  search_id : string;
  search_rev : JsVal
}.

(** One element of [result.docs] in a [bulkGet] answer: [{ok: doc}] or
    [{error: ...}]. *)
Inductive BulkGetDoc : Type :=
  | BulkOk (ok : Doc)
  | BulkError (error : JsVal).

(** One element of [bulkGetDocs.results]. *)
Record BulkGetResult : Type := mkBulk {
  bulk_id : string;
  bulk_docs : list BulkGetDoc
}.

(** ** The monad of the asynchronous functions *)

Inductive Err : Type :=
  | StoreFailure (reason : string)
  | RevisionConflict (key : string)
  | TypeError.

(** How an awaited call ends: it resolves, it rejects, or (for the retry
    loop run with a bounded number of rounds) it has not settled yet. *)
Inductive Outcome (A : Type) : Type :=
  | Returned (a : A)
  | Thrown (e : Err)
  | Pending.
Arguments Returned {A} a.
Arguments Thrown {A} e.
Arguments Pending {A}.

(** The store calls a function makes, in the order it makes them. *)
Inductive StoreCall : Type :=
  | CallFindLocal (key : string)
  | CallWriteLocal (written : Doc)
  | CallChanges (since : JsVal) (limit : Z)
  | CallBulkGet (docs : list DocSearch) (revs latest : bool).

(** A record of the local documents store: the body last written and the
    number of writes it has seen, from which its revision is made. *)
Record LocalEntry : Type := mkEntry {
  generation : N;
  body : Doc
}.

Record World : Type := mkWorld {
  localDocumentsStore : gmap string LocalEntry;
  calls : list StoreCall
}.

Definition M (A : Type) : Type := World -> Outcome A * World.

Definition ret {A} (a : A) : M A := fun w => (Returned a, w).

Definition throw {A} (e : Err) : M A := fun w => (Thrown e, w).

Definition pending {A} : M A := fun w => (Pending, w).

Definition bind {A B} (m : M A) (k : A -> M B) : M B :=
  fun w =>
    match m w with
    | (Returned a, w') => k a w'
    | (Thrown e, w') => (Thrown e, w')
    | (Pending, w') => (Pending, w')
    end.

Notation "'await' x ':=' m 'in' k" := (bind m (fun x => k))
  (at level 10, x name, m at level 100, k at level 200,
   format "'[v' 'await'  x  :=  m  'in' '/' k ']'").

Definition record_call (c : StoreCall) : M unit :=
  fun w => (Returned tt,
            {| localDocumentsStore := localDocumentsStore w;
               calls := calls w ++ [c] |}).

(** A call to a capability that reads the store and may fail. *)
Definition lift {A} (r : Err + A) : M A :=
  match r with
  | inl e => throw e
  | inr a => ret a
  end.

(** ** The local documents store *)

(** The revision string of a local document written [g] times. *)
Definition rev_string (g : N) : string := "0-" +:+ pretty g.

(** The document the store hands out for the entry kept under a key: its
    body, with the key as [_id] and the storage revision as [_rev]. *)
Definition stored_doc (key : string) (e : LocalEntry) : Doc :=
  <["_rev" := JStr (rev_string (generation e))]> (<["_id" := JStr key]> (body e)).

(** Modelled from the spec: [findLocalDocument] of [rx-storage-helper], which
    is not under src/. Section 6, [readLocalMetadata(key) -> record | absent]:
    the record stored under the key, with its storage revision, or nothing
    ([null]). The read itself is taken to succeed: a store that fails to
    read (section 7) is outside this model. *)
Definition findLocalDocument (key : string) : M (option Doc) :=
  await _ := record_call (CallFindLocal key) in
  fun w => (Returned (stored_doc key <$> localDocumentsStore w !! key), w).

(** Modelled from the spec: [writeSingleLocal] of [rx-storage-helper], which
    is not under src/. Section 6,
    [writeLocalMetadata(key, record, expectedRevision?) -> updated record]:
    a record without a revision creates the entry when the key is free; a
    record carrying the revision the store holds replaces the entry; every
    other write is a revision conflict (section 7). The updated record has
    the new storage revision. The module passes [false] for [overwrite] at
    every call; with [true] the store would take the write whatever its
    revision. *)
Definition writeSingleLocal (overwrite : bool) (d : Doc) : M Doc :=
  await _ := record_call (CallWriteLocal d) in
  match get_field d "_id" with
  | JStr key =>
      fun w =>
        let store := localDocumentsStore w in
        let accept g :=
          let e := {| generation := g; body := d |} in
          (Returned (stored_doc key e),
           {| localDocumentsStore := <[key := e]> store; calls := calls w |}) in
        match store !! key with
        | None =>
            if strict_eq (get_field d "_rev") JUndefined
            then accept 1%N
            else (Thrown (RevisionConflict key), w)
        | Some old =>
            if overwrite
               || strict_eq (get_field d "_rev") (JStr (rev_string (generation old)))
            then accept (N.succ (generation old))
            else (Thrown (RevisionConflict key), w)
        end
  | _ => throw (StoreFailure "missing _id")
  end.

(** ** The collection *)

(** Modelled from the spec: [pouchSwapIdToPrimary] of [rx-storage-pouchdb],
    which is not under src/. Section 4.2, step 4: the primary-key field is
    renamed from the store's internal identifier, [_id], to the schema's
    logical primary key name. The spec has no rule for a schema whose
    primary key is itself named [_id], nor for a body that already holds a
    value under the primary key: there is nothing to rename to, and the body
    is handed back as it is. *)
Definition pouchSwapIdToPrimary (primaryPath : string) (docData : Doc) : Doc :=
  if String.eqb primaryPath "_id" || truthy (get_property docData primaryPath)
  then docData
  else <[primaryPath := get_field docData "_id"]> (delete "_id" docData).

(** What the functions use of an [RxCollection], apart from its local
    documents store: the PouchDB calls [pouch.changes] (always asked with
    [include_docs: true]) and [pouch.bulkGet] (always asked with [revs: true]
    and [latest: true]), the decoding [_handleFromPouch] and
    [schema.primaryPath]. PouchDB is not part of the repository and the
    decoding is not under src/: they are fields the theorems quantify over. *)
Record RxCollection : Type := mkCollection {
  pouch_changes : JsVal -> Z -> Err + PouchdbChangesResult;
  pouch_bulkGet : list DocSearch -> Err + list BulkGetResult;
  _handleFromPouch : Doc -> Doc;
  primaryPath : string
}.

(** [Array.prototype.map] with a callback that can throw. *)
Fixpoint map_throwing {A B} (f : A -> Err + B) (l : list A) : Err + list B :=
  match l with
  | [] => inr []
  | x :: l' =>
      match f x with
      | inl e => inl e
      | inr y =>
          match map_throwing f l' with
          | inl e => inl e
          | inr ys => inr (y :: ys)
          end
      end
  end.

Section CrawlingCheckpoint.

(** The imports from [./helper], which is not under src/: the plugin
    identifier and the loop-prevention oracle of section 4.4. The oracle is
    called with whatever [change.doc._rev] holds. *)
Variable GRAPHQL_REPLICATION_PLUGIN_IDENT : string.
Variable wasRevisionfromPullReplication : string -> JsVal -> bool.

Variable collection : RxCollection.

(** *** The push checkpoint *)

Definition pushSequenceId (endpointHash : string) : string :=
  GRAPHQL_REPLICATION_PLUGIN_IDENT +:+ "-push-checkpoint-" +:+ endpointHash.

Definition getLastPushSequence (endpointHash : string) : M JsVal :=
  await doc := findLocalDocument (pushSequenceId endpointHash) in
  match doc with
  | None => ret (JNum 0)
  | Some doc => ret (get_field doc "value")
  end.

Definition setLastPushSequence (endpointHash : string) (seq : JsVal) : M Doc :=
  let _id := pushSequenceId endpointHash in
  await doc := findLocalDocument _id in
  let doc :=
    match doc with
    | None => <["value" := seq]> {["_id" := JStr _id]}
    | Some doc => <["value" := seq]> doc
    end in
  await res := writeSingleLocal false doc in
  ret res.

(** *** The batch of changes to push *)

(** The callback of [changes.results.filter]. *)
Definition pushable (endpointHash lastPulledRevField : string)
    (change : PouchChangeRow) : bool :=
  if wasRevisionfromPullReplication endpointHash
       (get_field (row_doc change) "_rev")
  then false
  else if strict_eq (get_property (row_doc change) lastPulledRevField)
                    (get_field (row_doc change) "_rev")
  then false
  else if startsWith (row_id change) "_design/"
  then false
  else true.

(** The callback of [filteredResults.map]. *)
Definition docsSearch (result : PouchChangeRow) : DocSearch :=
  {| search_id := row_id result;
     search_rev := get_field (row_doc result) "_rev" |}.

(** The callback of [bulkGetDocs.results.map]: [result.docs[0]['ok']] is
    read twice; with no first element, or with a first element that has no
    [ok], reading [._deleted] of it throws. *)
Definition fromBulkGet (result : BulkGetResult) : Err + PouchChangeRow :=
  match bulk_docs result with
  | BulkOk ok :: _ =>
      inr {| row_id := bulk_id result;
             row_seq := None;
             row_deleted := get_field ok "_deleted";
             row_doc := ok |}
  | BulkError _ :: _ => inl TypeError
  | [] => inl TypeError
  end.

(** The refresh of the selected rows when [syncRevisions] is set. *)
Definition refresh (syncRevisions : bool)
    (filteredResults : list PouchChangeRow) : M (list PouchChangeRow) :=
  if (0 <? Z.of_nat (length filteredResults)) && syncRevisions
  then
    let search := map docsSearch filteredResults in
    await _ := record_call (CallBulkGet search true true) in
    await bulkGetDocs := lift (pouch_bulkGet collection search) in
    lift (map_throwing fromBulkGet bulkGetDocs)
  else ret filteredResults.

(** [changes.results.filter(...)]. *)
Definition filteredResults (endpointHash lastPulledRevField : string)
    (changes : PouchdbChangesResult) : list PouchChangeRow :=
  filter (fun change => pushable endpointHash lastPulledRevField change = true)
         (results changes).

(** The [while (retry)] loop, run for at most [rounds] rounds. *)
Fixpoint retry_loop (rounds : nat) (endpointHash lastPulledRevField : string)
    (batchSize : Z) (syncRevisions : bool) (lastPushSequence : JsVal)
    : M PouchdbChangesResult :=
  match rounds with
  | O => pending
  | S rounds' =>
      await _ := record_call (CallChanges lastPushSequence batchSize) in
      await changes := lift (pouch_changes collection lastPushSequence batchSize) in
      await useResults :=
        refresh syncRevisions
          (filteredResults endpointHash lastPulledRevField changes) in
      if (Z.of_nat (length useResults) =? 0)
         && (Z.of_nat (length (results changes)) =? batchSize)
      then retry_loop rounds' endpointHash lastPulledRevField batchSize
             syncRevisions (JNum (last_seq changes))
      else ret {| results := useResults; last_seq := last_seq changes |}
  end.

(** The callback of the final [forEach]. *)
Definition fromPouch (change : PouchChangeRow) : PouchChangeRow :=
  {| row_id := row_id change;
     row_seq := row_seq change;
     row_deleted := row_deleted change;
     row_doc := pouchSwapIdToPrimary (primaryPath collection)
                  (_handleFromPouch collection (row_doc change)) |}.

Definition getChangesSinceLastPushSequence (rounds : nat)
    (endpointHash lastPulledRevField : string)
    (batchSize : Z) (syncRevisions : bool) : M PouchdbChangesResult :=
  await lastPushSequence := getLastPushSequence endpointHash in
  await changes := retry_loop rounds endpointHash lastPulledRevField
                     batchSize syncRevisions lastPushSequence in
  ret {| results := map fromPouch (results changes);
         last_seq := last_seq changes |}.

(** *** The pull checkpoint *)

Definition pullLastDocumentId (endpointHash : string) : string :=
  GRAPHQL_REPLICATION_PLUGIN_IDENT +:+ "-pull-checkpoint-" +:+ endpointHash.

Definition getLastPullDocument (endpointHash : string) : M JsVal :=
  await localDoc := findLocalDocument (pullLastDocumentId endpointHash) in
  match localDoc with
  | None => ret JNull
  | Some localDoc => ret (get_field localDoc "doc")
  end.

Definition setLastPullDocument (endpointHash : string) (doc : JsVal) : M Doc :=
  let _id := pullLastDocumentId endpointHash in
  await localDoc := findLocalDocument _id in
  match localDoc with
  | None => writeSingleLocal false (<["doc" := doc]> {["_id" := JStr _id]})
  | Some localDoc => writeSingleLocal false (<["doc" := doc]> localDoc)
  end.

End CrawlingCheckpoint.

(** ** A store whose change feed is a finite list *)

(** The sequence number of a feed row. *)
Definition seq_of (change : PouchChangeRow) : Z := default 0 (row_seq change).

(** The order of a change feed: by sequence. *)
Definition feed_order (a b : PouchChangeRow) : Prop := seq_of a < seq_of b.

(** Modelled from the spec: the change feed of the store, [pouch.changes],
    which is PouchDB's and not under src/. Section 6,
    [changesSince(sequence, limit) -> {results, lastSequence}]: the ordered
    feed gives the first [limit] rows strictly after the cursor, and the
    sequence of the last row given (the cursor itself when there is none,
    section 4.2, edge cases). A cursor that is not a number reads as the
    start of the feed. *)
Definition feed_changes (feed : list PouchChangeRow) (since : JsVal) (limit : Z)
    : Err + PouchdbChangesResult :=
  let cursor := match since with JNum n => n | _ => 0 end in
  let window :=
    take (Z.to_nat limit) (filter (fun change => cursor < seq_of change) feed) in
  inr {| results := window;
         last_seq := default cursor (seq_of <$> last window) |}.

(** Modelled from the spec: [pouch.bulkGet], which is PouchDB's and not under
    src/. Section 6, [bulkGetLatest(list of (id, revision))]: for each
    request the latest winning body the store holds for that identifier, or
    an error when it holds none. *)
Definition feed_bulkGet (feed : list PouchChangeRow) (docs : list DocSearch)
    : Err + list BulkGetResult :=
  inr (map (fun q =>
              {| bulk_id := search_id q;
                 bulk_docs :=
                   match filter (fun change => row_id change = search_id q) feed with
                   | change :: _ => [BulkOk (row_doc change)]
                   | [] => [BulkError (JStr "not_found")]
                   end |}) docs).

Definition feed_collection (feed : list PouchChangeRow) (primary : string)
    : RxCollection :=
  {| pouch_changes := feed_changes feed;
     pouch_bulkGet := feed_bulkGet feed;
     _handleFromPouch := fun d => d;
     primaryPath := primary |}.

Definition empty_world : World :=
  {| localDocumentsStore := ∅; calls := [] |}.

(** A feed row for a document with the given identifier, revision and one
    further field. *)
Definition change_row (seq : Z) (id rev : string) (field : string) (v : JsVal)
    : PouchChangeRow :=
  {| row_id := id;
     row_seq := Some seq;
     row_deleted := JUndefined;
     row_doc := <[field := v]> (<["_rev" := JStr rev]> {["_id" := JStr id]}) |}.

(** A sample oracle: the revisions written by a pull end in [-pull]. *)
Definition sample_oracle (endpointHash : string) (rev : JsVal) : bool :=
  match rev with
  | JStr r => String.prefix (String.rev "-pull") (String.rev r)
  | _ => false
  end.

(** Alice and Carol were changed locally; Bob's revision was written by a
    pull; Dave is still at the revision he was last pulled with. *)
Definition sample_feed : list PouchChangeRow :=
  [ change_row 1 "alice" "1-a" "age" (JNum 30);
    change_row 2 "bob" "2-b-pull" "age" (JNum 41);
    change_row 3 "carol" "1-c" "age" (JNum 25);
    change_row 4 "dave" "3-d" "last_pulled_rev" (JStr "3-d") ].

(** The same store a moment later: Alice has been deleted in revision
    [2-a]. *)
Definition later_feed : list PouchChangeRow :=
  [ change_row 2 "bob" "2-b-pull" "age" (JNum 41);
    change_row 3 "carol" "1-c" "age" (JNum 25);
    change_row 4 "dave" "3-d" "last_pulled_rev" (JStr "3-d");
    change_row 5 "alice" "2-a" "_deleted" (JBool true) ].

(** A collection whose feed was read before, and whose documents are
    fetched after, Alice was deleted. *)
Definition racing_collection : RxCollection :=
  {| pouch_changes := feed_changes sample_feed;
     pouch_bulkGet := feed_bulkGet later_feed;
     _handleFromPouch := fun d => d;
     primaryPath := "name" |}.

(** The sample store as a collection whose primary key is [name], and the
    batch it gives a fresh endpoint. *)
Definition sample_collection : RxCollection := feed_collection sample_feed "name".

Definition sample_batch : PouchdbChangesResult :=
  {| results :=
       [ fromPouch sample_collection (change_row 1 "alice" "1-a" "age" (JNum 30));
         fromPouch sample_collection (change_row 3 "carol" "1-c" "age" (JNum 25)) ];
     last_seq := 4 |}.

(** A feed of twenty-five changes, all written by a pull. *)
Definition pulled_feed : list PouchChangeRow :=
  map (fun n => change_row (Z.of_nat n) ("doc" +:+ pretty n) "1-x-pull"
                  "age" (JNum (Z.of_nat n)))
      (seq 1 25).

(** ** Sequences of checkpoint calls *)

(** A call of one of the two push-checkpoint functions for an endpoint. *)
Inductive CheckpointCall : Type :=
  | DoGet
  | DoSet (seq : Z).

Definition run_call (ident endpointHash : string) (c : CheckpointCall)
    : M unit :=
  match c with
  | DoGet => await _ := getLastPushSequence ident endpointHash in ret tt
  | DoSet seq =>
      await _ := setLastPushSequence ident endpointHash (JNum seq) in ret tt
  end.

(** The sequence the persisted push checkpoint holds, as
    [getLastPushSequence] reads it. *)
Definition stored_sequence (ident endpointHash : string) (w : World) : Z :=
  match fst (getLastPushSequence ident endpointHash w) with
  | Returned (JNum n) => n
  | _ => 0
  end.

(** The stored sequence after each call of a run of successful calls. *)
Fixpoint stored_history (ident endpointHash : string)
    (cs : list CheckpointCall) (w : World) : list Z :=
  match cs with
  | [] => []
  | c :: cs' =>
      match run_call ident endpointHash c w with
      | (Returned _, w') =>
          stored_sequence ident endpointHash w'
            :: stored_history ident endpointHash cs' w'
      | _ => []
      end
  end.

(** The callers never hand [setLastPushSequence] a sequence below the one
    handed before, starting from [floor]. *)
Fixpoint sets_ascend (floor : Z) (cs : list CheckpointCall) : Prop :=
  match cs with
  | [] => True
  | DoGet :: cs' => sets_ascend floor cs'
  | DoSet seq :: cs' => floor <= seq /\ sets_ascend seq cs'
  end.

(** What the stored sequence is expected to be after each call of a run
    that starts with [stored] in the store: a [getLastPushSequence] leaves
    it, a [setLastPushSequence] replaces it by its argument. *)
Fixpoint written_trace (stored : Z) (cs : list CheckpointCall) : list Z :=
  match cs with
  | [] => []
  | DoGet :: cs' => stored :: written_trace stored cs'
  | DoSet seq :: cs' => seq :: written_trace seq cs'
  end.

(** ** What a returned batch is made of *)

(** The rows of a returned batch, given the rows the filter kept of the last
    window: without refresh they are those rows after the final [forEach];
    with [syncRevisions] and at least one row kept they are the answer of
    [bulkGet] to the search made of those rows, rebuilt and passed through
    the same [forEach]. *)
Definition batch_built_from (collection : RxCollection) (syncRevisions : bool)
    (selected batch_results : list PouchChangeRow) : Prop :=
  if (0 <? Z.of_nat (length selected)) && syncRevisions
  then exists bulkGetDocs refreshed,
         pouch_bulkGet collection (map docsSearch selected) = inr bulkGetDocs /\
         map_throwing fromBulkGet bulkGetDocs = inr refreshed /\
         batch_results = map (fromPouch collection) refreshed
  else batch_results = map (fromPouch collection) selected.

(** ** What the retry loop asks of the change feed *)

(** A finite feed, asked for windows of [batchSize] rows: every fetch
    answers, with at most [batchSize] rows; from the end of the feed on it
    answers with fewer; and a full window carries a [last_seq] beyond the
    cursor it was asked with. *)
Record feed_contract (collection : RxCollection) (batchSize final : Z)
    : Prop := mkContract {
  fetch_answers : forall since,
    exists changes, pouch_changes collection since batchSize = inr changes;
  fetch_at_most : forall since changes,
    pouch_changes collection since batchSize = inr changes ->
    Z.of_nat (length (results changes)) <= batchSize;
  fetch_exhausted : forall cursor changes,
    final <= cursor ->
    pouch_changes collection (JNum cursor) batchSize = inr changes ->
    Z.of_nat (length (results changes)) < batchSize;
  fetch_advances : forall cursor changes,
    pouch_changes collection (JNum cursor) batchSize = inr changes ->
    Z.of_nat (length (results changes)) = batchSize ->
    cursor < last_seq changes
}.

(** ** Auxiliary definitions for the statements *)

(** The world after one more store call. *)
Definition logged (w : World) (c : StoreCall) : World :=
  {| localDocumentsStore := localDocumentsStore w; calls := calls w ++ [c] |}.

Definition settle {A} (r : Err + A) : Outcome A :=
  match r with
  | inl e => Thrown e
  | inr a => Returned a
  end.

(** The document [setLastPushSequence] hands to [writeSingleLocal]. *)
Definition push_doc (ident h : string) (seq : JsVal) (w : World) : Doc :=
  match localDocumentsStore w !! pushSequenceId ident h with
  | None => <["value" := seq]> {["_id" := JStr (pushSequenceId ident h)]}
  | Some e => <["value" := seq]> (stored_doc (pushSequenceId ident h) e)
  end.

(** The entry the store keeps after [setLastPushSequence]. *)
Definition push_entry (ident h : string) (seq : JsVal) (w : World) : LocalEntry :=
  {| generation :=
       match localDocumentsStore w !! pushSequenceId ident h with
       | None => 1%N
       | Some e => N.succ (generation e)
       end;
     body := push_doc ident h seq w |}.

(** The cursor [getLastPushSequence] reads in a world. *)
Definition cursor_of (ident h : string) (w : World) : JsVal :=
  match localDocumentsStore w !! pushSequenceId ident h with
  | None => JNum 0
  | Some e => get_field (stored_doc (pushSequenceId ident h) e) "value"
  end.

(** The value of [useResults], without the store call it may cost. *)
Definition use_results (coll : RxCollection) (sr : bool)
    (filteredResults : list PouchChangeRow)
    : Err + list PouchChangeRow :=
  if (0 <? Z.of_nat (length filteredResults)) && sr
  then match pouch_bulkGet coll (map docsSearch filteredResults) with
       | inl e => inl e
       | inr bulkGetDocs => map_throwing fromBulkGet bulkGetDocs
       end
  else inr filteredResults.

(** The world after the store calls of one round. *)
Definition after_round (bs : Z) (sr : bool) (w : World) (since : JsVal)
    (filteredResults : list PouchChangeRow) : World :=
  if (0 <? Z.of_nat (length filteredResults)) && sr
  then logged (logged w (CallChanges since bs))
         (CallBulkGet (map docsSearch filteredResults) true true)
  else logged w (CallChanges since bs).

(** The last store call of a round. *)
Definition last_call (bs : Z) (sr : bool) (since : JsVal)
    (filteredResults : list PouchChangeRow)
    : StoreCall :=
  if (0 <? Z.of_nat (length filteredResults)) && sr
  then CallBulkGet (map docsSearch filteredResults) true true
  else CallChanges since bs.

(** The test of the [if] that ends a round. *)
Definition retries (bs : Z) (changes : PouchdbChangesResult)
    (useResults : list PouchChangeRow) : bool :=
  (Z.of_nat (length useResults) =? 0)
  && (Z.of_nat (length (results changes)) =? bs).

(** The outcome of a loop whose last round saw the window [changes]. *)
Definition final_outcome (oracle : string -> JsVal -> bool) (coll : RxCollection)
    (h f : string) (sr : bool) (changes : PouchdbChangesResult)
    : Outcome PouchdbChangesResult :=
  match use_results coll sr (filteredResults oracle h f changes) with
  | inl e => Thrown e
  | inr useResults =>
      Returned {| results := useResults; last_seq := last_seq changes |}
  end.

(** The loop ends at the window [changes]: it threw while refreshing it, or
    it found the test of the final [if] false. *)
Definition ends_at (oracle : string -> JsVal -> bool) (coll : RxCollection)
    (h f : string) (bs : Z) (sr : bool) (changes : PouchdbChangesResult) : Prop :=
  match use_results coll sr (filteredResults oracle h f changes) with
  | inl _ => True
  | inr useResults => retries bs changes useResults = false
  end.

(** A refreshed record and the [bulkGet] result it was rebuilt from. *)
Definition refreshed_from (coll : RxCollection) (result : BulkGetResult)
    (r : PouchChangeRow) : Prop :=
  exists ok,
    head (bulk_docs result) = Some (BulkOk ok) /\
    row_id r = bulk_id result /\
    row_doc r = pouchSwapIdToPrimary (primaryPath coll) (_handleFromPouch coll ok) /\
    row_deleted r = get_field ok "_deleted".

(** A [bulkGet] answer that gives, for each document asked for, a result
    under its identifier whose body, if there is one, is at the revision
    asked for: the answer of a store in which the document has not changed
    since the feed was read. *)
Definition answers_as_asked (search : list DocSearch)
    (bulkGetDocs : list BulkGetResult) : Prop :=
  Forall2 (fun q result =>
             bulk_id result = search_id q /\
             forall ok, head (bulk_docs result) = Some (BulkOk ok) ->
                        get_field ok "_rev" = search_rev q)
          search bulkGetDocs.

(** A [bulkGet] answer that gives one result for each document asked for, in
    the order asked, under its identifier. *)
Definition answers_under_ids (search : list DocSearch)
    (bulkGetDocs : list BulkGetResult) : Prop :=
  Forall2 (fun q result => bulk_id result = search_id q) search bulkGetDocs.

(** A search entry that asks for a row by its identifier and its revision. *)
Definition asks_for (change : PouchChangeRow) (q : DocSearch) : Prop :=
  search_id q = row_id change /\
  search_rev q = get_field (row_doc change) "_rev".

(** The largest sequence of a feed. *)
Definition feed_end (feed : list PouchChangeRow) : Z :=
  foldr (fun change m => Z.max (seq_of change) m) 0 feed.

(** ** Auxiliary definitions for the further properties *)

(** The document [setLastPullDocument] hands to [writeSingleLocal]. *)
Definition pull_doc (ident h : string) (doc : JsVal) (w : World) : Doc :=
  match localDocumentsStore w !! pullLastDocumentId ident h with
  | None => <["doc" := doc]> {["_id" := JStr (pullLastDocumentId ident h)]}
  | Some e => <["doc" := doc]> (stored_doc (pullLastDocumentId ident h) e)
  end.

(** The entry the store keeps after [setLastPullDocument]. *)
Definition pull_entry (ident h : string) (doc : JsVal) (w : World) : LocalEntry :=
  {| generation :=
       match localDocumentsStore w !! pullLastDocumentId ident h with
       | None => 1%N
       | Some e => N.succ (generation e)
       end;
     body := pull_doc ident h doc w |}.

(** The sequence the latest [setLastPushSequence] of a run was given, or
    [floor] when the run has none. *)
Fixpoint latest_set (floor : Z) (cs : list CheckpointCall) : Z :=
  match cs with
  | [] => floor
  | DoGet :: cs' => latest_set floor cs'
  | DoSet seq :: cs' => latest_set seq cs'
  end.

(** The store calls that write. *)
Definition is_write (c : StoreCall) : bool :=
  match c with
  | CallWriteLocal _ => true
  | _ => false
  end.

(** A world reached from another by store calls that only read. *)
Definition reads_only (w w' : World) : Prop :=
  localDocumentsStore w' = localDocumentsStore w /\
  exists added,
    calls w' = (calls w ++ added)%list /\
    Forall (fun c => is_write c = false) added.

(** A [bulkGet] result whose first document is not an [ok] body. *)
Definition lacks_ok (result : BulkGetResult) : Prop :=
  forall ok, head (bulk_docs result) <> Some (BulkOk ok).

(** A collection over the sample feed whose [bulkGet] finds nothing to
    answer with. *)
Definition forgetful_collection : RxCollection :=
  {| pouch_changes := feed_changes sample_feed;
     pouch_bulkGet := fun _ => inr [];
     _handleFromPouch := fun d => d;
     primaryPath := "name" |}.

(** The sample store after a pull has landed: Alice is now at a revision
    written by the pull, and Carol at the revision she was pulled with. *)
Definition pulled_later_feed : list PouchChangeRow :=
  [ change_row 2 "bob" "2-b-pull" "age" (JNum 41);
    change_row 4 "dave" "3-d" "last_pulled_rev" (JStr "3-d");
    change_row 5 "alice" "2-a-pull" "age" (JNum 31);
    change_row 6 "carol" "2-c" "last_pulled_rev" (JStr "2-c") ].

(** A collection whose feed was read before, and whose documents are
    fetched after, that pull. *)
Definition pull_racing_collection : RxCollection :=
  {| pouch_changes := feed_changes sample_feed;
     pouch_bulkGet := feed_bulkGet pulled_later_feed;
     _handleFromPouch := fun d => d;
     primaryPath := "name" |}.

(** A collection whose feed answers every fetch, whatever the cursor, with
    the same row, written by a pull. *)
Definition stuck_collection : RxCollection :=
  {| pouch_changes := fun _ _ =>
       inr {| results := [change_row 2 "bob" "2-b-pull" "age" (JNum 41)];
              last_seq := 2 |};
     pouch_bulkGet := feed_bulkGet sample_feed;
     _handleFromPouch := fun d => d;
     primaryPath := "name" |}.

(** A collection over the feed of pulled changes whose store fails once the
    cursor has left the start of the feed, and whose [bulkGet] always
    fails. *)
Definition failing_collection : RxCollection :=
  {| pouch_changes := fun since limit =>
       match since with
       | JNum 0 => feed_changes pulled_feed since limit
       | _ => inl (StoreFailure "closed")
       end;
     pouch_bulkGet := fun _ => inl (StoreFailure "closed");
     _handleFromPouch := fun d => d;
     primaryPath := "name" |}.

(** The loop, started with the cursor [since], comes to ask the feed with
    the cursor [later] in its round number [n] (from 0): each window before
    was full and the filter kept none of its rows. *)
Inductive skips_to (oracle : string -> JsVal -> bool) (coll : RxCollection)
    (h f : string) (bs : Z) : JsVal -> JsVal -> nat -> Prop :=
  | skips_here since : skips_to oracle coll h f bs since since 0
  | skips_on since changes later n :
      pouch_changes coll since bs = inr changes ->
      filteredResults oracle h f changes = [] ->
      Z.of_nat (length (results changes)) = bs ->
      skips_to oracle coll h f bs (JNum (last_seq changes)) later n ->
      skips_to oracle coll h f bs since later (S n).

(** * Sample runs *)

Example pushable_local_change :
  pushable sample_oracle "endpoint" "last_pulled_rev"
    (change_row 1 "alice" "1-a" "age" (JNum 30)) = true.
Proof. reflexivity. Qed.

Example pushable_pulled_revision :
  pushable sample_oracle "endpoint" "last_pulled_rev"
    (change_row 2 "bob" "2-b-pull" "age" (JNum 41)) = false.
Proof. reflexivity. Qed.

Example pushable_unchanged_since_pull :
  pushable sample_oracle "endpoint" "last_pulled_rev"
    (change_row 4 "dave" "3-d" "last_pulled_rev" (JStr "3-d")) = false.
Proof. reflexivity. Qed.

Example pushable_design_document :
  pushable sample_oracle "endpoint" "last_pulled_rev"
    (change_row 7 "_design/idx" "1-i" "views" JNull) = false.
Proof. reflexivity. Qed.

Example sample_run :
  fst (getChangesSinceLastPushSequence "rxdbreplicationgraphql" sample_oracle
         sample_collection 1 "endpoint" "last_pulled_rev" 10 false empty_world)
    = Returned sample_batch.
Proof. vm_compute. reflexivity. Qed.

Example sample_run_calls :
  calls (snd (getChangesSinceLastPushSequence "rxdbreplicationgraphql"
                sample_oracle sample_collection 1 "endpoint" "last_pulled_rev" 10
                true empty_world))
    = [ CallFindLocal "rxdbreplicationgraphql-push-checkpoint-endpoint";
        CallChanges (JNum 0) 10;
        CallBulkGet [ {| search_id := "alice"; search_rev := JStr "1-a" |};
                      {| search_id := "carol"; search_rev := JStr "1-c" |} ]
          true true ].
Proof. vm_compute. reflexivity. Qed.

(** The refresh hands out what the store holds when it is asked. *)
Example racing_run :
  match fst (getChangesSinceLastPushSequence "rxdbreplicationgraphql"
               sample_oracle racing_collection 1 "endpoint" "last_pulled_rev" 10
               true empty_world) with
  | Returned batch =>
      map (fun r => (row_id r, get_field (row_doc r) "_rev", row_deleted r))
          (results batch)
  | _ => []
  end = [ ("alice", JStr "2-a", JBool true); ("carol", JStr "1-c", JUndefined) ].
Proof. vm_compute. reflexivity. Qed.

(** A [bulkGet] result without an [ok] body makes the call throw. *)
Example refresh_of_missing_document :
  fst (getChangesSinceLastPushSequence "rxdbreplicationgraphql" sample_oracle
         {| pouch_changes := feed_changes sample_feed;
            pouch_bulkGet := feed_bulkGet [];
            _handleFromPouch := fun d => d;
            primaryPath := "name" |}
         1 "endpoint" "last_pulled_rev" 10 true empty_world)
    = Thrown TypeError.
Proof. vm_compute. reflexivity. Qed.

(** A write that does not carry the revision the store holds is refused. *)
Example stale_write :
  fst (writeSingleLocal false
         (<["value" := JNum 7]> {["_id" := JStr "rxdbreplicationgraphql-push-checkpoint-endpoint"]})
         (snd (setLastPushSequence "rxdbreplicationgraphql" "endpoint" (JNum 5)
                 empty_world)))
    = Thrown (RevisionConflict "rxdbreplicationgraphql-push-checkpoint-endpoint").
Proof. vm_compute. reflexivity. Qed.

(** * Running the monad *)

Lemma lift_run {A} (r : Err + A) (w : World) : lift r w = (settle r, w).
Proof. by destruct r. Qed.

Lemma bind_run_returned {A B} (m : M A) (k : A -> M B) w a w1 :
  m w = (Returned a, w1) -> bind m k w = k a w1.
Proof. unfold bind. by intros ->. Qed.

Lemma findLocalDocument_run key w :
  findLocalDocument key w =
    (Returned (stored_doc key <$> localDocumentsStore w !! key),
     logged w (CallFindLocal key)).
Proof. reflexivity. Qed.

(** * The push and pull checkpoints *)

Section CheckpointTheory.

Context (ident : string).

Lemma getLastPushSequence_run h w :
  getLastPushSequence ident h w =
    (Returned
       match localDocumentsStore w !! pushSequenceId ident h with
       | None => JNum 0
       | Some e => get_field (stored_doc (pushSequenceId ident h) e) "value"
       end,
     logged w (CallFindLocal (pushSequenceId ident h))).
Proof.
  unfold getLastPushSequence.
  erewrite bind_run_returned by apply findLocalDocument_run.
  simpl. by destruct (localDocumentsStore w !! pushSequenceId ident h).
Qed.

Lemma getLastPullDocument_run h w :
  getLastPullDocument ident h w =
    (Returned
       match localDocumentsStore w !! pullLastDocumentId ident h with
       | None => JNull
       | Some e => get_field (stored_doc (pullLastDocumentId ident h) e) "doc"
       end,
     logged w (CallFindLocal (pullLastDocumentId ident h))).
Proof.
  unfold getLastPullDocument.
  erewrite bind_run_returned by apply findLocalDocument_run.
  simpl. by destruct (localDocumentsStore w !! pullLastDocumentId ident h).
Qed.

Lemma push_doc_id h seq w :
  get_field (push_doc ident h seq w) "_id" = JStr (pushSequenceId ident h).
Proof.
  unfold push_doc, get_field, stored_doc.
  destruct (localDocumentsStore w !! pushSequenceId ident h);
    by simplify_map_eq.
Qed.

Lemma push_doc_rev h seq w :
  get_field (push_doc ident h seq w) "_rev" =
    match localDocumentsStore w !! pushSequenceId ident h with
    | None => JUndefined
    | Some e => JStr (rev_string (generation e))
    end.
Proof.
  unfold push_doc, get_field, stored_doc.
  destruct (localDocumentsStore w !! pushSequenceId ident h);
    by simplify_map_eq.
Qed.

Lemma push_doc_value h seq w : get_field (push_doc ident h seq w) "value" = seq.
Proof.
  unfold push_doc, get_field.
  destruct (localDocumentsStore w !! pushSequenceId ident h);
    by simplify_map_eq.
Qed.

(** In a run without interleaved writers the write of
    [setLastPushSequence] carries the revision just read, so the store
    accepts it. *)
Lemma setLastPushSequence_run h seq w :
  setLastPushSequence ident h seq w =
    (Returned (stored_doc (pushSequenceId ident h) (push_entry ident h seq w)),
     {| localDocumentsStore :=
          <[pushSequenceId ident h := push_entry ident h seq w]> (localDocumentsStore w);
        calls := calls w ++ [CallFindLocal (pushSequenceId ident h);
                             CallWriteLocal (push_doc ident h seq w)] |}).
Proof.
  unfold setLastPushSequence.
  erewrite bind_run_returned by apply findLocalDocument_run.
  pose proof (push_doc_id h seq w) as Hid.
  pose proof (push_doc_rev h seq w) as Hrev.
  unfold push_entry, push_doc in *.
  set (key := pushSequenceId ident h) in *.
  unfold bind, writeSingleLocal, bind, record_call, logged, ret. cbn [fst snd].
  destruct (localDocumentsStore w !! key) as [e|] eqn:He; cbn [fmap option_fmap option_map].
  - rewrite Hid. cbn. rewrite He, Hrev. cbn.
    rewrite String.eqb_refl. cbn. by rewrite <- app_assoc.
  - rewrite Hid. cbn. rewrite He, Hrev. cbn. by rewrite <- app_assoc.
Qed.

End CheckpointTheory.

Lemma last_snoc2 {A} (l : list A) (a b : A) : last (l ++ [a; b]) = Some b.
Proof.
  change [a; b] with ([a] ++ [b])%list. rewrite app_assoc. apply last_snoc.
Qed.

Lemma rev_string_succ g : rev_string (N.succ g) <> rev_string g.
Proof.
  unfold rev_string. intros H.
  apply (inj (String.append "0-")) in H. apply (inj pretty) in H. lia.
Qed.

Lemma stored_doc_rev key e :
  get_field (stored_doc key e) "_rev" = JStr (rev_string (generation e)).
Proof. unfold get_field, stored_doc. by simplify_map_eq. Qed.

Lemma stored_doc_id key e : get_field (stored_doc key e) "_id" = JStr key.
Proof. unfold get_field, stored_doc. by simplify_map_eq. Qed.

Lemma stored_sequence_set ident h seq w :
  stored_sequence ident h (snd (setLastPushSequence ident h (JNum seq) w)) = seq.
Proof.
  unfold stored_sequence.
  rewrite setLastPushSequence_run, getLastPushSequence_run. cbn [fst snd localDocumentsStore].
  rewrite lookup_insert_eq. unfold stored_doc, get_field. cbn [body push_entry].
  simplify_map_eq. fold (get_field (push_doc ident h (JNum seq) w) "value").
  by rewrite push_doc_value.
Qed.

Lemma stored_sequence_get ident h w :
  stored_sequence ident h (snd (getLastPushSequence ident h w)) =
  stored_sequence ident h w.
Proof.
  unfold stored_sequence. by rewrite !getLastPushSequence_run.
Qed.

(** C5. After [setLastPushSequence(h, 5)] the getter returns 5; after a
    following [setLastPushSequence(h, 9)] it returns 9. The second call
    writes the record under the same [_id] with the revision the store gave
    the first one, the store answers with a new revision, and the store
    holds no further record than before. *)
Theorem push_sequence_round_trip (ident h : string) (w : World) :
  exists r1 w1 r2 w2,
    setLastPushSequence ident h (JNum 5) w = (Returned r1, w1) /\
    fst (getLastPushSequence ident h w1) = Returned (JNum 5) /\
    setLastPushSequence ident h (JNum 9) w1 = (Returned r2, w2) /\
    fst (getLastPushSequence ident h w2) = Returned (JNum 9) /\
    (exists written,
        last (calls w2) = Some (CallWriteLocal written) /\
        get_field written "_id" = get_field r1 "_id" /\
        get_field written "_rev" = get_field r1 "_rev") /\
    get_field r2 "_id" = get_field r1 "_id" /\
    get_field r2 "_rev" <> get_field r1 "_rev" /\
    dom (localDocumentsStore w2) = dom (localDocumentsStore w1).
Proof.
  do 4 eexists.
  split; [apply setLastPushSequence_run |].
  split.
  { rewrite getLastPushSequence_run. cbn [fst localDocumentsStore].
    rewrite lookup_insert_eq. unfold stored_doc, get_field. cbn [body push_entry].
    simplify_map_eq. fold (get_field (push_doc ident h (JNum 5) w) "value").
    by rewrite push_doc_value. }
  split; [apply setLastPushSequence_run |].
  split.
  { rewrite getLastPushSequence_run. cbn [fst localDocumentsStore].
    rewrite lookup_insert_eq. unfold stored_doc at 1. unfold get_field.
    cbn [body push_entry]. simplify_map_eq.
    match goal with
    | |- context [push_doc ident h (JNum 9) ?w1] =>
        fold (get_field (push_doc ident h (JNum 9) w1) "value")
    end.
    by rewrite push_doc_value. }
  split.
  { eexists. split.
    - cbn [calls]. apply last_snoc2.
    - rewrite push_doc_id, push_doc_rev, stored_doc_id, stored_doc_rev.
      cbn [localDocumentsStore]. by rewrite lookup_insert_eq. }
  split; [by rewrite !stored_doc_id |].
  split.
  { rewrite !stored_doc_rev. cbn [generation push_entry localDocumentsStore].
    rewrite lookup_insert_eq. cbn [generation].
    intros H.
    exact (rev_string_succ _
             (f_equal (fun v => match v with JStr r => r | _ => "" end) H)). }
  cbn [localDocumentsStore]. rewrite !dom_insert_L.
  by rewrite (assoc_L (∪)), (idemp_L (∪)).
Qed.

(** C6. For an endpoint with no checkpoint record in the store,
    [getLastPushSequence] returns 0 and [getLastPullDocument] returns
    [null]; both return without throwing and leave the store as it was. *)
Theorem absent_checkpoint_defaults (ident h : string) (w : World) :
  localDocumentsStore w !! pushSequenceId ident h = None ->
  localDocumentsStore w !! pullLastDocumentId ident h = None ->
  (exists w',
      getLastPushSequence ident h w = (Returned (JNum 0), w') /\
      localDocumentsStore w' = localDocumentsStore w) /\
  (exists w',
      getLastPullDocument ident h w = (Returned JNull, w') /\
      localDocumentsStore w' = localDocumentsStore w).
Proof.
  intros Hpush Hpull. split; eexists.
  - rewrite getLastPushSequence_run, Hpush. by split.
  - rewrite getLastPullDocument_run, Hpull. by split.
Qed.

Lemma absent_checkpoint_defaults_witness :
  (exists w',
      getLastPushSequence "rxdbreplicationgraphql" "endpoint" empty_world
        = (Returned (JNum 0), w') /\
      localDocumentsStore w' = localDocumentsStore empty_world) /\
  (exists w',
      getLastPullDocument "rxdbreplicationgraphql" "endpoint" empty_world
        = (Returned JNull, w') /\
      localDocumentsStore w' = localDocumentsStore empty_world).
Proof.
  apply (absent_checkpoint_defaults "rxdbreplicationgraphql" "endpoint" empty_world);
    reflexivity.
Defined.

(** ** The stored sequence over a run of calls *)

Lemma run_call_returns ident h c w :
  exists w', run_call ident h c w = (Returned tt, w') /\
    stored_sequence ident h w' =
      match c with
      | DoGet => stored_sequence ident h w
      | DoSet seq => seq
      end.
Proof.
  destruct c as [| seq]; unfold run_call.
  - eexists. split.
    + erewrite bind_run_returned by apply getLastPushSequence_run. reflexivity.
    + pose proof (stored_sequence_get ident h w) as H.
      rewrite getLastPushSequence_run in H. exact H.
  - eexists. split.
    + erewrite bind_run_returned by apply setLastPushSequence_run. reflexivity.
    + pose proof (stored_sequence_set ident h seq w) as H.
      rewrite setLastPushSequence_run in H. exact H.
Qed.

Lemma stored_history_length ident h cs w :
  length (stored_history ident h cs w) = length cs.
Proof.
  revert w. induction cs as [| c cs IH]; intros w; [done |].
  destruct (run_call_returns ident h c w) as (w' & Hrun & _).
  cbn [stored_history]. rewrite Hrun. cbn [length]. by rewrite IH.
Qed.

Lemma written_trace_length stored cs :
  length (written_trace stored cs) = length cs.
Proof.
  revert stored. induction cs as [| [| seq] cs IH]; intros stored; cbn; by rewrite ?IH.
Qed.

Lemma stored_history_trace ident h cs w :
  stored_history ident h cs w = written_trace (stored_sequence ident h w) cs.
Proof.
  revert w. induction cs as [| c cs IH]; intros w; [done |].
  destruct (run_call_returns ident h c w) as (w' & Hrun & Hseq).
  cbn [stored_history]. rewrite Hrun, IH, Hseq.
  by destruct c.
Qed.

Lemma written_trace_sorted stored cs :
  sets_ascend stored cs -> Sorted Z.le (stored :: written_trace stored cs).
Proof.
  revert stored. induction cs as [| [| seq] cs IH]; intros stored Hasc.
  - repeat constructor.
  - cbn [written_trace]. constructor; [by apply IH | constructor; lia].
  - cbn [written_trace]. destruct Hasc as [Hle Hasc].
    constructor; [by apply IH | by constructor].
Qed.

(** C10, as the code has it. Across a run of successful
    [getLastPushSequence] and [setLastPushSequence] calls for an endpoint,
    the stored sequence after each call is the one before it when the call
    is a [getLastPushSequence], and the sequence handed over when it is a
    [setLastPushSequence], which stores it without comparing it with the
    stored one. The stored sequence therefore never decreases when the
    callers never hand over a sequence below the stored one. *)
Theorem stored_sequence_follows_callers (ident h : string)
    (cs : list CheckpointCall) (w : World) :
  length (stored_history ident h cs w) = length cs ->
  stored_history ident h cs w = written_trace (stored_sequence ident h w) cs /\
  (sets_ascend (stored_sequence ident h w) cs ->
   Sorted Z.le (stored_sequence ident h w :: stored_history ident h cs w)).
Proof.
  intros _. split; [apply stored_history_trace |].
  intros Hasc. rewrite stored_history_trace. by apply written_trace_sorted.
Qed.

Lemma stored_sequence_follows_callers_witness :
  stored_history "rxdbreplicationgraphql" "endpoint"
    [DoSet 5; DoGet; DoSet 9; DoGet] empty_world = [5; 5; 9; 9] /\
  Sorted Z.le
    (stored_sequence "rxdbreplicationgraphql" "endpoint" empty_world
       :: stored_history "rxdbreplicationgraphql" "endpoint"
            [DoSet 5; DoGet; DoSet 9; DoGet] empty_world).
Proof.
  destruct (stored_sequence_follows_callers "rxdbreplicationgraphql" "endpoint"
              [DoSet 5; DoGet; DoSet 9; DoGet] empty_world) as [Htrace Hsorted].
  - vm_compute. reflexivity.
  - split; [exact Htrace |]. apply Hsorted.
    vm_compute. repeat split; discriminate.
Defined.

(** C10, as stated, fails: two successful calls, the second with a smaller
    sequence, leave the persisted checkpoint below where it was. *)
Lemma stored_sequence_regresses :
  stored_history "rxdbreplicationgraphql" "endpoint" [DoSet 9; DoSet 5] empty_world
    = [9; 5] /\
  ~ Sorted Z.le
      (stored_history "rxdbreplicationgraphql" "endpoint"
         [DoSet 9; DoSet 5] empty_world).
Proof.
  assert (stored_history "rxdbreplicationgraphql" "endpoint"
            [DoSet 9; DoSet 5] empty_world = [9; 5]) as -> by (vm_compute; reflexivity).
  split; [done |].
  intros H. inversion H as [| ? ? _ Hhd]; subst.
  inversion Hhd as [| ? ? Hle]; subst. lia.
Qed.

(** ** Filtering a list *)

Section Filter.

Context {A : Type} (P : A -> Prop) `{forall x, Decision (P x)}.

Lemma filter_none (l : list A) : Forall (fun x => ~ P x) l -> filter P l = [].
Proof.
  induction 1 as [| x l Hx _ IH]; [done |].
  by rewrite filter_cons_False.
Qed.

Lemma filter_all (l : list A) : Forall P l -> filter P l = l.
Proof.
  induction 1 as [| x l Hx _ IH]; [done |].
  rewrite filter_cons_True by done. by rewrite IH.
Qed.

End Filter.

(** * The batch of changes to push *)

Section BatchTheory.

Context (ident : string) (oracle : string -> JsVal -> bool).
Context (coll : RxCollection).
Context (h f : string) (bs : Z) (sr : bool).

Local Abbreviation selected := (filteredResults oracle h f).

Lemma refresh_round filteredResults w since :
  refresh coll sr filteredResults (logged w (CallChanges since bs)) =
    (settle (use_results coll sr filteredResults), after_round bs sr w since filteredResults).
Proof.
  unfold refresh, use_results, after_round.
  destruct ((0 <? Z.of_nat (length filteredResults)) && sr); [| reflexivity].
  unfold bind, record_call. cbn [fst snd].
  rewrite lift_run.
  destruct (pouch_bulkGet coll (map docsSearch filteredResults)) as [e | docs];
    cbn [settle]; [reflexivity |].
  by rewrite lift_run.
Qed.

Lemma after_round_store w since l :
  localDocumentsStore (after_round bs sr w since l) = localDocumentsStore w.
Proof. unfold after_round. by destruct (_ && _). Qed.

Lemma after_round_last w since l :
  last (calls (after_round bs sr w since l)) = Some (last_call bs sr since l).
Proof.
  unfold after_round, last_call.
  destruct (_ && _); cbn [logged calls]; apply last_snoc.
Qed.

(** One round of the loop, when the feed answers. *)
Lemma retry_loop_round rounds since w changes :
  pouch_changes coll since bs = inr changes ->
  retry_loop oracle coll (S rounds) h f bs sr since w =
    match use_results coll sr (selected changes) with
    | inl e => (Thrown e, after_round bs sr w since (selected changes))
    | inr useResults =>
        if retries bs changes useResults
        then retry_loop oracle coll rounds h f bs sr (JNum (last_seq changes))
               (after_round bs sr w since (selected changes))
        else (Returned {| results := useResults; last_seq := last_seq changes |},
              after_round bs sr w since (selected changes))
    end.
Proof.
  intros Hfetch. cbn [retry_loop].
  unfold bind at 1. unfold record_call at 1.
  unfold bind at 1. rewrite lift_run, Hfetch. cbn [settle].
  unfold bind at 1. fold (logged w (CallChanges since bs)).
  fold (selected changes). rewrite refresh_round.
  destruct (use_results coll sr (selected changes)) as [e | useResults]; cbn [settle];
    [reflexivity |].
  unfold retries. by destruct (_ && _).
Qed.

(** One round of the loop, when the feed fails. *)
Lemma retry_loop_fetch_fails rounds since w e :
  pouch_changes coll since bs = inl e ->
  retry_loop oracle coll (S rounds) h f bs sr since w =
    (Thrown e, logged w (CallChanges since bs)).
Proof.
  intros Hfetch. cbn [retry_loop].
  unfold bind at 1. unfold record_call at 1.
  unfold bind at 1. by rewrite lift_run, Hfetch.
Qed.

(** What a returned loop has done in its last round. *)
Lemma retry_loop_returned rounds since w changes' w' :
  retry_loop oracle coll rounds h f bs sr since w = (Returned changes', w') ->
  exists since' changes,
    pouch_changes coll since' bs = inr changes /\
    use_results coll sr (selected changes) = inr (results changes') /\
    last_seq changes' = last_seq changes /\
    retries bs changes (results changes') = false /\
    localDocumentsStore w' = localDocumentsStore w /\
    last (calls w') = Some (last_call bs sr since' (selected changes)).
Proof.
  revert since w. induction rounds as [| rounds IH]; intros since w Hrun.
  - discriminate.
  - destruct (pouch_changes coll since bs) as [e | changes] eqn:Hfetch.
    + by rewrite (retry_loop_fetch_fails _ _ _ _ Hfetch) in Hrun.
    + rewrite (retry_loop_round _ _ _ _ Hfetch) in Hrun.
      destruct (use_results coll sr (selected changes)) as [e | useResults] eqn:Huse;
        [discriminate |].
      destruct (retries bs changes useResults) eqn:Hretry.
      * apply IH in Hrun as (since' & changes0 & ? & ? & ? & ? & Hstore & ?).
        exists since', changes0. rewrite Hstore, after_round_store. done.
      * injection Hrun as <- <-. exists since, changes. cbn [results last_seq].
        by rewrite after_round_store, after_round_last.
Qed.

Lemma getChanges_run rounds w :
  getChangesSinceLastPushSequence ident oracle coll rounds h f bs sr w =
    match retry_loop oracle coll rounds h f bs sr (cursor_of ident h w)
            (logged w (CallFindLocal (pushSequenceId ident h))) with
    | (Returned changes, w') =>
        (Returned {| results := map (fromPouch coll) (results changes);
                     last_seq := last_seq changes |}, w')
    | (Thrown e, w') => (Thrown e, w')
    | (Pending, w') => (Pending, w')
    end.
Proof.
  unfold getChangesSinceLastPushSequence.
  erewrite bind_run_returned by apply getLastPushSequence_run.
  reflexivity.
Qed.

Lemma use_results_built filteredResults useResults :
  use_results coll sr filteredResults = inr useResults ->
  batch_built_from coll sr filteredResults (map (fromPouch coll) useResults).
Proof.
  unfold use_results, batch_built_from.
  destruct (_ && _).
  - destruct (pouch_bulkGet coll (map docsSearch filteredResults))
      as [e | docs] eqn:Hbulk; [discriminate |].
    intros Hmap. by exists docs, useResults.
  - by intros [= ->].
Qed.

Lemma use_results_nil : use_results coll sr [] = inr [].
Proof. reflexivity. Qed.

Lemma use_results_nonempty filteredResults useResults :
  use_results coll sr filteredResults = inr useResults ->
  useResults <> [] -> filteredResults <> [].
Proof. intros Huse Hne ->. by rewrite use_results_nil in Huse; injection Huse as <-. Qed.

Lemma use_results_thrown filteredResults e :
  use_results coll sr filteredResults = inl e ->
  sr = true /\ filteredResults <> [] /\
  (pouch_bulkGet coll (map docsSearch filteredResults) = inl e \/
   exists bulkGetDocs,
     pouch_bulkGet coll (map docsSearch filteredResults) = inr bulkGetDocs /\
     map_throwing fromBulkGet bulkGetDocs = inl e).
Proof.
  unfold use_results.
  destruct filteredResults as [| c l]; [discriminate |].
  destruct sr; [| discriminate]. cbn [length andb].
  replace (0 <? Z.of_nat (S (length l))) with true by (symmetry; apply Z.ltb_lt; lia).
  intros Huse. split; [done |]. split; [done |].
  destruct (pouch_bulkGet coll (map docsSearch (c :: l))) as [e' | docs].
  - left. by injection Huse as ->.
  - right. by exists docs.
Qed.

Lemma retries_false changes useResults :
  retries bs changes useResults = false ->
  useResults <> [] \/ Z.of_nat (length (results changes)) <> bs.
Proof.
  unfold retries. intros Hretry.
  apply andb_false_iff in Hretry as [Hlen | Hlen].
  - left. intros ->. discriminate.
  - right. by apply Z.eqb_neq.
Qed.

(** What a returned call has done in the last round of its loop. *)
Lemma getChanges_returned rounds w batch w' :
  getChangesSinceLastPushSequence ident oracle coll rounds h f bs sr w
    = (Returned batch, w') ->
  exists since changes,
    pouch_changes coll since bs = inr changes /\
    batch_built_from coll sr (selected changes) (results batch) /\
    last_seq batch = last_seq changes /\
    (results batch <> [] \/ Z.of_nat (length (results changes)) <> bs) /\
    localDocumentsStore w' = localDocumentsStore w /\
    last (calls w') = Some (last_call bs sr since (selected changes)).
Proof.
  rewrite getChanges_run.
  destruct (retry_loop _ _ _ _ _ _ _ _ _) as [[changes' | e |] w1] eqn:Hloop;
    intros Hrun; try discriminate.
  injection Hrun as <- <-.
  apply retry_loop_returned
    in Hloop as (since & changes & Hfetch & Huse & Hseq & Hretry & Hstore & Hlast).
  exists since, changes. cbn [results last_seq].
  split; [done |]. split; [by apply use_results_built |]. split; [done |].
  split; [| done].
  destruct (retries_false _ _ Hretry) as [Hne | Hlen]; [left | by right].
  by destruct (results changes').
Qed.

(** One round over a window of which the filter keeps nothing. *)
Lemma retry_loop_round_filtered rounds since w changes :
  pouch_changes coll since bs = inr changes ->
  Forall (fun change => pushable oracle h f change <> true) (results changes) ->
  retry_loop oracle coll (S rounds) h f bs sr since w =
    if Z.of_nat (length (results changes)) =? bs
    then retry_loop oracle coll rounds h f bs sr (JNum (last_seq changes))
           (logged w (CallChanges since bs))
    else (Returned {| results := []; last_seq := last_seq changes |},
          logged w (CallChanges since bs)).
Proof.
  intros Hfetch Hnone. rewrite (retry_loop_round _ _ _ _ Hfetch).
  unfold selected, filteredResults.
  rewrite (filter_none (fun change => pushable oracle h f change = true)) by done.
  rewrite use_results_nil. unfold retries, after_round. reflexivity.
Qed.

(** *** Termination of the retry loop *)

Context (final : Z) (Hfeed : feed_contract coll bs final).

Lemma retry_loop_settles rounds cursor w :
  (Z.to_nat (final - cursor) < rounds)%nat ->
  exists since changes,
    pouch_changes coll since bs = inr changes /\
    ends_at oracle coll h f bs sr changes /\
    fst (retry_loop oracle coll rounds h f bs sr (JNum cursor) w)
      = final_outcome oracle coll h f sr changes.
Proof.
  revert cursor w. induction rounds as [| rounds IH]; intros cursor w Hrounds;
    [lia |].
  destruct (fetch_answers _ _ _ Hfeed (JNum cursor)) as [changes Hfetch].
  rewrite (retry_loop_round _ _ _ _ Hfetch).
  destruct (use_results coll sr (selected changes)) as [e | useResults] eqn:Huse.
  - exists (JNum cursor), changes. unfold ends_at, final_outcome.
    by rewrite Huse.
  - destruct (retries bs changes useResults) eqn:Hretry.
    + unfold retries in Hretry. apply andb_true_iff in Hretry as [_ Hfull].
      apply Z.eqb_eq in Hfull.
      pose proof (fetch_advances _ _ _ Hfeed _ _ Hfetch Hfull) as Hadv.
      assert (cursor < final) as Hopen.
      { destruct (Z.le_gt_cases final cursor) as [Hend |]; [| lia].
        pose proof (fetch_exhausted _ _ _ Hfeed _ _ Hend Hfetch). lia. }
      apply IH. lia.
    + exists (JNum cursor), changes. unfold ends_at, final_outcome.
      by rewrite Huse.
Qed.

Lemma retry_loop_settles_from since w :
  exists enough, forall rounds, (enough <= rounds)%nat ->
  exists since' changes,
    pouch_changes coll since' bs = inr changes /\
    ends_at oracle coll h f bs sr changes /\
    fst (retry_loop oracle coll rounds h f bs sr since w)
      = final_outcome oracle coll h f sr changes.
Proof.
  destruct (fetch_answers _ _ _ Hfeed since) as [changes Hfetch].
  exists (2 + Z.to_nat (final - last_seq changes))%nat.
  intros [| rounds] Hrounds; [lia |].
  rewrite (retry_loop_round _ _ _ _ Hfetch).
  destruct (use_results coll sr (selected changes)) as [e | useResults] eqn:Huse.
  - exists since, changes. unfold ends_at, final_outcome. by rewrite Huse.
  - destruct (retries bs changes useResults) eqn:Hretry.
    + apply retry_loop_settles. lia.
    + exists since, changes. unfold ends_at, final_outcome. by rewrite Huse.
Qed.

End BatchTheory.

(** ** The filter *)

Lemma pushable_spec oracle h f change :
  pushable oracle h f change = true <->
  oracle h (get_field (row_doc change) "_rev") = false /\
  strict_eq (get_property (row_doc change) f) (get_field (row_doc change) "_rev") = false /\
  startsWith (row_id change) "_design/" = false.
Proof.
  unfold pushable.
  destruct (oracle h _), (strict_eq _ _), (startsWith _ _);
    intuition congruence.
Qed.

Lemma elem_of_map {A B} (g : A -> B) (l : list A) (y : B) :
  y ∈ map g l <-> exists x, y = g x /\ x ∈ l.
Proof. change (map g l) with (g <$> l). apply list_elem_of_fmap. Qed.

Lemma filteredResults_elem oracle h f changes change :
  change ∈ filteredResults oracle h f changes <->
  pushable oracle h f change = true /\ change ∈ results changes.
Proof.
  unfold filteredResults.
  apply (list_elem_of_filter (fun c => pushable oracle h f c = true)).
Qed.

Lemma batch_built_direct coll selected batch_results r :
  batch_built_from coll false selected batch_results ->
  r ∈ batch_results ->
  exists change, change ∈ selected /\ r = fromPouch coll change.
Proof.
  unfold batch_built_from. rewrite andb_false_r. intros -> Hr.
  apply elem_of_map in Hr as (change & -> & Hin). by exists change.
Qed.

(** ** Refresh and the final [forEach] *)

Lemma map_throwing_refreshed coll bulkGetDocs refreshed :
  map_throwing fromBulkGet bulkGetDocs = inr refreshed ->
  Forall2 (refreshed_from coll) bulkGetDocs (map (fromPouch coll) refreshed).
Proof.
  revert refreshed. induction bulkGetDocs as [| result docs IH]; intros refreshed.
  - intros [= <-]. constructor.
  - cbn [map_throwing].
    destruct (fromBulkGet result) as [e | row] eqn:Hrow; [discriminate |].
    destruct (map_throwing fromBulkGet docs) as [e | rows]; [discriminate |].
    intros [= <-]. cbn [map]. constructor; [| by apply IH].
    unfold fromBulkGet in Hrow. unfold refreshed_from.
    destruct (bulk_docs result) as [| [ok | err] rest]; try discriminate.
    injection Hrow as <-. by exists ok.
Qed.



Lemma batch_built_refreshed coll selected batch_results bulkGetDocs r :
  batch_built_from coll true selected batch_results ->
  pouch_bulkGet coll (map docsSearch selected) = inr bulkGetDocs ->
  answers_as_asked (map docsSearch selected) bulkGetDocs ->
  r ∈ batch_results ->
  exists change ok,
    change ∈ selected /\
    row_id r = row_id change /\
    get_field ok "_rev" = get_field (row_doc change) "_rev" /\
    row_doc r = pouchSwapIdToPrimary (primaryPath coll) (_handleFromPouch coll ok).
Proof.
  unfold batch_built_from, answers_as_asked. rewrite andb_true_r.
  intros Hbuilt Hbulk Hasked Hr.
  destruct selected as [| kept rest].
  { cbn in Hbuilt. rewrite Hbuilt in Hr. by apply elem_of_nil in Hr. }
  set (selected := kept :: rest) in *.
  replace (0 <? Z.of_nat (length selected)) with true in Hbuilt
    by (symmetry; apply Z.ltb_lt; cbn [length selected]; lia).
  destruct Hbuilt as (docs & refreshed & Hbulk' & Hmap & ->).
  rewrite Hbulk in Hbulk'. injection Hbulk' as <-.
  apply (map_throwing_refreshed coll) in Hmap.
  apply list_elem_of_lookup in Hr as [i Hi].
  destruct (Forall2_lookup_r _ _ _ _ _ Hmap Hi)
    as (result & Hres & ok & Hok & Hid & Hdoc & _).
  destruct (Forall2_lookup_r _ _ _ _ _ Hasked Hres) as (q & Hq & Hqid & Hqrev).
  change (map docsSearch selected) with (docsSearch <$> selected) in Hq.
  rewrite list_lookup_fmap in Hq.
  destruct (selected !! i) as [change |] eqn:Hchange; [| discriminate].
  injection Hq as <-. exists change, ok.
  split; [by eapply list_elem_of_lookup_2 |].
  split; [by rewrite Hid, Hqid |].
  split; [by rewrite (Hqrev ok Hok) | done].
Qed.

(** C1, as the code has it. Whatever the feed, the batch size and
    [syncRevisions], a returned batch is made of the rows the filter kept of
    one fetched window, and a change whose current revision the oracle
    reports as pulled is not among them, nor is it asked for in the refresh.
    Without refresh every returned record is the final form of a feed row
    the oracle does not flag. With [syncRevisions] the records are the
    answers of [bulkGet], which the filter never sees: each of them stems
    from a feed row the oracle does not flag, at that row's revision, when
    [bulkGet] answers every request under the identifier and at the revision
    asked for. *)
Theorem loop_prevention (ident : string) (oracle : string -> JsVal -> bool)
    (coll : RxCollection) (rounds : nat) (h f : string) (bs : Z) (sr : bool)
    (w w' : World) (batch : PouchdbChangesResult) :
  getChangesSinceLastPushSequence ident oracle coll rounds h f bs sr w
    = (Returned batch, w') ->
  exists since changes,
    pouch_changes coll since bs = inr changes /\
    batch_built_from coll sr (filteredResults oracle h f changes) (results batch) /\
    (forall change,
        oracle h (get_field (row_doc change) "_rev") = true ->
        (change ∉ filteredResults oracle h f changes) /\
        (docsSearch change ∉ map docsSearch (filteredResults oracle h f changes))) /\
    (sr = false ->
     forall r, r ∈ results batch ->
       exists change,
         change ∈ results changes /\
         oracle h (get_field (row_doc change) "_rev") = false /\
         r = fromPouch coll change) /\
    (sr = true ->
     forall bulkGetDocs,
       pouch_bulkGet coll (map docsSearch (filteredResults oracle h f changes))
         = inr bulkGetDocs ->
       answers_as_asked (map docsSearch (filteredResults oracle h f changes))
         bulkGetDocs ->
       forall r, r ∈ results batch ->
         exists change ok,
           change ∈ results changes /\
           oracle h (get_field (row_doc change) "_rev") = false /\
           row_id r = row_id change /\
           get_field ok "_rev" = get_field (row_doc change) "_rev" /\
           row_doc r = pouchSwapIdToPrimary (primaryPath coll)
                         (_handleFromPouch coll ok)).
Proof.
  intros Hrun.
  apply getChanges_returned in Hrun as (since & changes & Hfetch & Hbuilt & _).
  exists since, changes. split; [done |]. split; [done |]. split; [| split].
  - intros change Hflag. split.
    + intros Hin. apply filteredResults_elem in Hin as [Hpush _].
      apply pushable_spec in Hpush as [Hno _]. congruence.
    + intros Hin. apply elem_of_map in Hin as (kept & Heq & Hin).
      apply filteredResults_elem in Hin as [Hpush _].
      apply pushable_spec in Hpush as [Hno _].
      assert (search_rev (docsSearch change) = search_rev (docsSearch kept)) as Hrev
        by by rewrite Heq.
      cbn [search_rev docsSearch] in Hrev. congruence.
  - intros -> r Hr.
    destruct (batch_built_direct _ _ _ _ Hbuilt Hr) as (change & Hin & ->).
    apply filteredResults_elem in Hin as [Hpush Hin].
    apply pushable_spec in Hpush as [Hno _]. by exists change.
  - intros -> docs Hbulk Hasked r Hr.
    destruct (batch_built_refreshed _ _ _ _ _ Hbuilt Hbulk Hasked Hr)
      as (change & ok & Hin & Hid & Hrev & Hdoc).
    apply filteredResults_elem in Hin as [Hpush Hin].
    apply pushable_spec in Hpush as [Hno _]. by exists change, ok.
Qed.

(** C2, as the code has it. A change whose body holds, under
    [lastPulledRevField], the very revision it has under [_rev] is not among
    the rows a returned batch is made of, whatever the oracle says of that
    revision. Without refresh every returned record is the final form of a
    feed row whose two fields differ. With [syncRevisions] the records are
    the answers of [bulkGet], which the filter never sees: each of them is
    fetched for a feed row whose two fields differ, at that row's revision,
    when [bulkGet] answers every request under the identifier and at the
    revision asked for. *)
Theorem unchanged_pulled_document_not_pushed (ident : string)
    (oracle : string -> JsVal -> bool)
    (coll : RxCollection) (rounds : nat) (h f : string) (bs : Z) (sr : bool)
    (w w' : World) (batch : PouchdbChangesResult) :
  getChangesSinceLastPushSequence ident oracle coll rounds h f bs sr w
    = (Returned batch, w') ->
  exists since changes,
    pouch_changes coll since bs = inr changes /\
    batch_built_from coll sr (filteredResults oracle h f changes) (results batch) /\
    (forall change,
        strict_eq (get_property (row_doc change) f)
                  (get_field (row_doc change) "_rev") = true ->
        change ∉ filteredResults oracle h f changes) /\
    (sr = false ->
     forall r, r ∈ results batch ->
       exists change,
         change ∈ results changes /\
         strict_eq (get_property (row_doc change) f)
                   (get_field (row_doc change) "_rev") = false /\
         r = fromPouch coll change) /\
    (sr = true ->
     forall bulkGetDocs,
       pouch_bulkGet coll (map docsSearch (filteredResults oracle h f changes))
         = inr bulkGetDocs ->
       answers_as_asked (map docsSearch (filteredResults oracle h f changes))
         bulkGetDocs ->
       forall r, r ∈ results batch ->
         exists change ok,
           change ∈ results changes /\
           strict_eq (get_property (row_doc change) f)
                     (get_field (row_doc change) "_rev") = false /\
           row_id r = row_id change /\
           get_field ok "_rev" = get_field (row_doc change) "_rev" /\
           row_doc r = pouchSwapIdToPrimary (primaryPath coll)
                         (_handleFromPouch coll ok)).
Proof.
  intros Hrun.
  apply getChanges_returned in Hrun as (since & changes & Hfetch & Hbuilt & _).
  exists since, changes. split; [done |]. split; [done |]. split; [| split].
  - intros change Hsame Hin. apply filteredResults_elem in Hin as [Hpush _].
    apply pushable_spec in Hpush as (_ & Hdiff & _). congruence.
  - intros -> r Hr.
    destruct (batch_built_direct _ _ _ _ Hbuilt Hr) as (change & Hin & ->).
    apply filteredResults_elem in Hin as [Hpush Hin].
    apply pushable_spec in Hpush as (_ & Hdiff & _). by exists change.
  - intros -> docs Hbulk Hasked r Hr.
    destruct (batch_built_refreshed _ _ _ _ _ Hbuilt Hbulk Hasked Hr)
      as (change & ok & Hin & Hid & Hrev & Hdoc).
    apply filteredResults_elem in Hin as [Hpush Hin].
    apply pushable_spec in Hpush as (_ & Hdiff & _). by exists change, ok.
Qed.

Lemma loop_prevention_witness :
  exists since changes,
    pouch_changes sample_collection since 10 = inr changes /\
    batch_built_from sample_collection false
      (filteredResults sample_oracle "endpoint" "last_pulled_rev" changes)
      (results sample_batch) /\
    (change_row 2 "bob" "2-b-pull" "age" (JNum 41)
       ∉ filteredResults sample_oracle "endpoint" "last_pulled_rev" changes) /\
    (forall r, r ∈ results sample_batch ->
       exists change,
         change ∈ results changes /\
         sample_oracle "endpoint" (get_field (row_doc change) "_rev") = false /\
         r = fromPouch sample_collection change).
Proof.
  destruct (loop_prevention "rxdbreplicationgraphql" sample_oracle sample_collection
              3 "endpoint" "last_pulled_rev" 10 false empty_world
              (snd (getChangesSinceLastPushSequence "rxdbreplicationgraphql"
                      sample_oracle sample_collection 3 "endpoint" "last_pulled_rev"
                      10 false empty_world))
              sample_batch)
    as (since & changes & Hfetch & Hbuilt & Hflagged & Hdirect & _).
  - vm_compute. reflexivity.
  - exists since, changes. split; [exact Hfetch |]. split; [exact Hbuilt |].
    split; [| exact (Hdirect eq_refl)].
    apply (Hflagged (change_row 2 "bob" "2-b-pull" "age" (JNum 41))).
    vm_compute. reflexivity.
Defined.

Lemma unchanged_pulled_document_not_pushed_witness :
  exists since changes,
    pouch_changes sample_collection since 10 = inr changes /\
    batch_built_from sample_collection false
      (filteredResults (fun _ _ => false) "endpoint" "last_pulled_rev" changes)
      (map (fromPouch sample_collection) (take 3 sample_feed)) /\
    (change_row 4 "dave" "3-d" "last_pulled_rev" (JStr "3-d")
       ∉ filteredResults (fun _ _ => false) "endpoint" "last_pulled_rev" changes) /\
    (forall r,
       r ∈ map (fromPouch sample_collection) (take 3 sample_feed) ->
       exists change,
         change ∈ results changes /\
         strict_eq (get_property (row_doc change) "last_pulled_rev")
                   (get_field (row_doc change) "_rev") = false /\
         r = fromPouch sample_collection change).
Proof.
  destruct (unchanged_pulled_document_not_pushed "rxdbreplicationgraphql"
              (fun _ _ => false) sample_collection
              3 "endpoint" "last_pulled_rev" 10 false empty_world
              (snd (getChangesSinceLastPushSequence "rxdbreplicationgraphql"
                      (fun _ _ => false) sample_collection 3 "endpoint"
                      "last_pulled_rev" 10 false empty_world))
              {| results := map (fromPouch sample_collection) (take 3 sample_feed);
                 last_seq := 4 |})
    as (since & changes & Hfetch & Hbuilt & Hsame & Hdirect & _).
  - vm_compute. reflexivity.
  - exists since, changes. split; [exact Hfetch |]. split; [exact Hbuilt |].
    split; [| exact (Hdirect eq_refl)].
    apply (Hsame (change_row 4 "dave" "3-d" "last_pulled_rev" (JStr "3-d"))).
    vm_compute. reflexivity.
Defined.

(** C1, as stated, fails with [syncRevisions]: the filter is applied to the
    rows of the feed, not to the bodies the refresh brings back. Here the
    feed was read with Alice at the local revision [1-a]; by the time of the
    refresh a pull has written her revision [2-a-pull], which the oracle
    reports as pulled; the returned batch holds Alice's record with that
    body. *)
Lemma pulled_revision_returned_by_refresh :
  exists batch w' r,
    getChangesSinceLastPushSequence "rxdbreplicationgraphql" sample_oracle
      pull_racing_collection 3 "endpoint" "last_pulled_rev" 10 true empty_world
      = (Returned batch, w') /\
    r ∈ results batch /\
    change_row 5 "alice" "2-a-pull" "age" (JNum 31) ∈ pulled_later_feed /\
    sample_oracle "endpoint"
      (get_field (row_doc (change_row 5 "alice" "2-a-pull" "age" (JNum 31))) "_rev")
      = true /\
    row_id r = row_id (change_row 5 "alice" "2-a-pull" "age" (JNum 31)) /\
    row_doc r = pouchSwapIdToPrimary "name"
                  (row_doc (change_row 5 "alice" "2-a-pull" "age" (JNum 31))) /\
    get_field (row_doc r) "_rev" = JStr "2-a-pull" /\
    sample_oracle "endpoint" (get_field (row_doc r) "_rev") = true.
Proof.
  eexists _, _,
    {| row_id := "alice"; row_seq := None; row_deleted := JUndefined;
       row_doc := pouchSwapIdToPrimary "name"
                    (row_doc (change_row 5 "alice" "2-a-pull" "age" (JNum 31))) |}.
  split; [vm_compute; reflexivity |].
  split; [apply list_elem_of_here |].
  split; [do 2 apply list_elem_of_further; apply list_elem_of_here |].
  repeat split; vm_compute; reflexivity.
Qed.

(** C2, as stated, fails with [syncRevisions], for the same reason. Here
    the feed was read with Carol at the local revision [1-c]; by the time of
    the refresh she is at the revision [2-c] she was last pulled with, which
    the oracle does not flag; the returned batch holds her record, whose
    body has that revision under both [last_pulled_rev] and [_rev]. *)
Lemma unchanged_pulled_document_returned_by_refresh :
  exists batch w' r,
    getChangesSinceLastPushSequence "rxdbreplicationgraphql" sample_oracle
      pull_racing_collection 3 "endpoint" "last_pulled_rev" 10 true empty_world
      = (Returned batch, w') /\
    r ∈ results batch /\
    change_row 6 "carol" "2-c" "last_pulled_rev" (JStr "2-c") ∈ pulled_later_feed /\
    row_id r = "carol" /\
    row_doc r = pouchSwapIdToPrimary "name"
                  (row_doc (change_row 6 "carol" "2-c" "last_pulled_rev" (JStr "2-c"))) /\
    get_property (row_doc r) "last_pulled_rev" = JStr "2-c" /\
    get_field (row_doc r) "_rev" = JStr "2-c" /\
    strict_eq (get_property (row_doc r) "last_pulled_rev")
              (get_field (row_doc r) "_rev") = true /\
    sample_oracle "endpoint" (get_field (row_doc r) "_rev") = false.
Proof.
  eexists _, _,
    {| row_id := "carol"; row_seq := None; row_deleted := JUndefined;
       row_doc := pouchSwapIdToPrimary "name"
                    (row_doc (change_row 6 "carol" "2-c" "last_pulled_rev"
                                (JStr "2-c"))) |}.
  split; [vm_compute; reflexivity |].
  split; [apply list_elem_of_further, list_elem_of_here |].
  split; [do 3 apply list_elem_of_further; apply list_elem_of_here |].
  repeat split; vm_compute; reflexivity.
Qed.

Lemma docsSearch_asks selected :
  Forall2 asks_for selected (map docsSearch selected).
Proof. induction selected; constructor; [by split | done]. Qed.

Lemma Forall2_chain {A B C} (P : A -> B -> Prop) (Q : B -> C -> Prop)
    (R : A -> C -> Prop) (l : list A) (k : list B) (m : list C) :
  (forall x y z, P x y -> Q y z -> R x z) ->
  Forall2 P l k -> Forall2 Q k m -> Forall2 R l m.
Proof.
  intros HPQ HP. revert m. induction HP as [| x y l k Hxy _ IH]; intros m HQ.
  - inversion HQ. constructor.
  - inversion HQ as [| ? z ? m' Hyz Hrest]; subst. constructor; [by eapply HPQ | by apply IH].
Qed.

Lemma batch_built_under_ids coll selected batch_results bulkGetDocs :
  batch_built_from coll true selected batch_results ->
  selected <> [] ->
  pouch_bulkGet coll (map docsSearch selected) = inr bulkGetDocs ->
  answers_under_ids (map docsSearch selected) bulkGetDocs ->
  Forall2 (fun change r => row_id r = row_id change) selected batch_results.
Proof.
  unfold batch_built_from, answers_under_ids. rewrite andb_true_r.
  intros Hbuilt Hne Hbulk Hids.
  replace (0 <? Z.of_nat (length selected)) with true in Hbuilt
    by (symmetry; apply Z.ltb_lt; destruct selected; [done | cbn [length]; lia]).
  destruct Hbuilt as (docs & refreshed & Hbulk' & Hmap & ->).
  rewrite Hbulk in Hbulk'. injection Hbulk' as <-.
  apply (map_throwing_refreshed coll) in Hmap.
  eapply (Forall2_chain asks_for); [| apply docsSearch_asks |].
  2:{ eapply Forall2_chain; [| exact Hids | exact Hmap].
      intros q result r Hq (ok & _ & Hid & _).
      exact (eq_trans Hid Hq). }
  intros change q r [Hq _] Hr. cbn in Hr. by rewrite Hr, Hq.
Qed.







(** ** The list-backed feed keeps the contract *)

Lemma feed_end_bound feed change :
  change ∈ feed -> seq_of change <= feed_end feed.
Proof.
  induction feed as [| c feed IH]; intros Hin.
  - by apply elem_of_nil in Hin.
  - cbn [feed_end foldr]. apply elem_of_cons in Hin as [-> | Hin].
    + lia.
    + specialize (IH Hin). unfold feed_end in IH. lia.
Qed.

Lemma feed_changes_contract coll feed bs :
  pouch_changes coll = feed_changes feed ->
  0 < bs ->
  feed_contract coll bs (feed_end feed).
Proof.
  intros Hcoll Hbs. split; rewrite Hcoll; unfold feed_changes.
  - intros since. eauto.
  - intros since changes [= <-]. cbn [results].
    rewrite length_take. lia.
  - intros cursor changes Hend [= <-]. cbn [results].
    rewrite filter_none; [rewrite take_nil; cbn; lia |].
    apply Forall_forall. intros change Hin%feed_end_bound. lia.
  - intros cursor changes [= <-]. cbn [results last_seq]. intros Hfull.
    destruct (last (take (Z.to_nat bs) (filter (fun change => cursor < seq_of change) feed)))
      as [change |] eqn:Hlast.
    + cbn. apply last_Some_elem_of in Hlast.
      apply elem_of_take in Hlast as (i & Hlook & _).
      apply list_elem_of_lookup_2 in Hlook.
      by apply (list_elem_of_filter (fun change => cursor < seq_of change)) in Hlook as [? _].
    + apply last_None in Hlast. rewrite Hlast in Hfull. cbn in Hfull. lia.
Qed.

(** C4. On a finite feed that answers every fetch with at most [batchSize]
    rows, with fewer from its end on, and with a [last_seq] beyond the cursor
    whenever the window is full, the call settles once the loop is given
    enough rounds: its last window holds a row the filter keeps, or is
    shorter than [batchSize]; the call returns the batch made of that
    window, or throws what the refresh of the kept rows threw. A window the
    filter emptied never ends the call with an error. *)
Theorem retry_loop_terminates (ident : string) (oracle : string -> JsVal -> bool)
    (coll : RxCollection) (h f : string) (bs : Z) (sr : bool) (final : Z)
    (w : World) :
  feed_contract coll bs final ->
  exists enough, forall rounds, (enough <= rounds)%nat ->
  exists since changes,
    pouch_changes coll since bs = inr changes /\
    (filteredResults oracle h f changes <> []
     \/ Z.of_nat (length (results changes)) < bs) /\
    match fst (getChangesSinceLastPushSequence ident oracle coll rounds h f bs sr w) with
    | Returned batch =>
        batch_built_from coll sr (filteredResults oracle h f changes) (results batch) /\
        last_seq batch = last_seq changes
    | Thrown e =>
        sr = true /\ filteredResults oracle h f changes <> [] /\
        (pouch_bulkGet coll (map docsSearch (filteredResults oracle h f changes)) = inl e
         \/ exists bulkGetDocs,
              pouch_bulkGet coll (map docsSearch (filteredResults oracle h f changes))
                = inr bulkGetDocs /\
              map_throwing fromBulkGet bulkGetDocs = inl e)
    | Pending => False
    end.
Proof.
  intros Hfeed.
  destruct (retry_loop_settles_from oracle coll h f bs sr final Hfeed
              (cursor_of ident h w)
              (logged w (CallFindLocal (pushSequenceId ident h))))
    as [enough Hsettles].
  exists enough. intros rounds Hrounds.
  destruct (Hsettles rounds Hrounds) as (since & changes & Hfetch & Hends & Hout).
  exists since, changes. split; [done |].
  rewrite getChanges_run.
  unfold ends_at, final_outcome in *.
  destruct (retry_loop oracle coll rounds h f bs sr (cursor_of ident h w) _)
    as [[changes' | e |] w1]; cbn [fst] in *;
    destruct (use_results coll sr (filteredResults oracle h f changes))
      as [e' | useResults] eqn:Huse; try discriminate.
  - injection Hout as ->. cbn [results last_seq].
    split.
    + destruct (retries_false _ _ _ Hends) as [Hne | Hlen].
      * left. by eapply use_results_nonempty.
      * right. pose proof (fetch_at_most _ _ _ Hfeed _ _ Hfetch). lia.
    + split; [by apply use_results_built | done].
  - injection Hout as ->.
    destruct (use_results_thrown _ _ _ _ Huse) as (Hsr & Hne & Hwhy).
    split; [by left | done].
Qed.

Lemma retry_loop_terminates_witness :
  exists enough, forall rounds, (enough <= rounds)%nat ->
  exists since changes,
    pouch_changes (feed_collection pulled_feed "name") since 10 = inr changes /\
    (filteredResults sample_oracle "endpoint" "last_pulled_rev" changes <> []
     \/ Z.of_nat (length (results changes)) < 10) /\
    match fst (getChangesSinceLastPushSequence "rxdbreplicationgraphql"
                 sample_oracle (feed_collection pulled_feed "name") rounds
                 "endpoint" "last_pulled_rev" 10 true empty_world) with
    | Returned batch =>
        batch_built_from (feed_collection pulled_feed "name") true
          (filteredResults sample_oracle "endpoint" "last_pulled_rev" changes)
          (results batch) /\
        last_seq batch = last_seq changes
    | Thrown e =>
        true = true /\
        filteredResults sample_oracle "endpoint" "last_pulled_rev" changes <> [] /\
        (pouch_bulkGet (feed_collection pulled_feed "name")
           (map docsSearch
              (filteredResults sample_oracle "endpoint" "last_pulled_rev" changes))
           = inl e
         \/ exists bulkGetDocs,
              pouch_bulkGet (feed_collection pulled_feed "name")
                (map docsSearch
                   (filteredResults sample_oracle "endpoint" "last_pulled_rev" changes))
                = inr bulkGetDocs /\
              map_throwing fromBulkGet bulkGetDocs = inl e)
    | Pending => False
    end.
Proof.
  apply (retry_loop_terminates "rxdbreplicationgraphql" sample_oracle
           (feed_collection pulled_feed "name") "endpoint" "last_pulled_rev"
           10 true (feed_end pulled_feed) empty_world).
  apply (feed_changes_contract (feed_collection pulled_feed "name") pulled_feed 10);
    [reflexivity | lia].
Defined.

(** ** Scanning a list-backed feed *)

Lemma StronglySorted_drop {A} (R : A -> A -> Prop) (l : list A) n :
  StronglySorted R l -> StronglySorted R (drop n l).
Proof.
  revert l. induction n as [| n IH]; intros l Hl; [done |].
  destruct l as [| x l]; [done |]. cbn [drop].
  apply IH. by inversion Hl.
Qed.

Lemma filter_after_lookup rows n x :
  StronglySorted feed_order rows ->
  rows !! n = Some x ->
  filter (fun change => seq_of x < seq_of change) rows = drop (S n) rows.
Proof.
  intros Hsorted. revert n.
  induction Hsorted as [| a rows Hsorted IH Hall]; intros n Hlook; [done |].
  destruct n as [| n]; cbn in Hlook.
  - injection Hlook as ->. rewrite filter_cons_False by lia.
    cbn [drop]. rewrite drop_0. by apply filter_all.
  - rewrite filter_cons_False.
    + cbn [drop]. by apply IH.
    + apply list_elem_of_lookup_2 in Hlook.
      rewrite Forall_forall in Hall. specialize (Hall x Hlook).
      unfold feed_order in Hall. lia.
Qed.

Lemma feed_after_lookup feed cursor rows n x :
  filter (fun change => cursor < seq_of change) feed = rows ->
  StronglySorted feed_order rows ->
  rows !! n = Some x ->
  filter (fun change => seq_of x < seq_of change) feed = drop (S n) rows.
Proof.
  intros Hrows Hsorted Hlook.
  rewrite <- (filter_after_lookup rows n x Hsorted Hlook), <- Hrows.
  symmetry. apply list_filter_filter_l.
  intros change Hafter.
  apply list_elem_of_lookup_2 in Hlook. rewrite <- Hrows in Hlook.
  apply (list_elem_of_filter (fun change => cursor < seq_of change)) in Hlook as [? _].
  lia.
Qed.

Section FeedScan.

Context (oracle : string -> JsVal -> bool) (coll : RxCollection).
Context (h f : string) (bs : Z) (sr : bool).
Context (feed : list PouchChangeRow).
Context (Hcoll : pouch_changes coll = feed_changes feed) (Hbs : 0 < bs).

(** A round over a full window of rows that the filter all drops: the
    loop goes on from the sequence of the last row of the window, with the
    rest of the feed ahead. *)
Lemma scan_full_window cursor rows x rounds w :
  filter (fun change => cursor < seq_of change) feed = rows ->
  StronglySorted feed_order rows ->
  Forall (fun change => pushable oracle h f change = false) rows ->
  rows !! pred (Z.to_nat bs) = Some x ->
  pouch_changes coll (JNum cursor) bs
    = inr {| results := take (Z.to_nat bs) rows; last_seq := seq_of x |} /\
  length (take (Z.to_nat bs) rows) = Z.to_nat bs /\
  retry_loop oracle coll (S rounds) h f bs sr (JNum cursor) w
    = retry_loop oracle coll rounds h f bs sr (JNum (seq_of x))
        (logged w (CallChanges (JNum cursor) bs)) /\
  filter (fun change => seq_of x < seq_of change) feed = drop (Z.to_nat bs) rows.
Proof.
  intros Hrows Hsorted Hnone Hlook.
  assert (pred (Z.to_nat bs) < length rows)%nat as Hlen
    by (apply lookup_lt_is_Some; eauto).
  assert (length (take (Z.to_nat bs) rows) = Z.to_nat bs) as Htake
    by (rewrite length_take; lia).
  assert (pouch_changes coll (JNum cursor) bs
          = inr {| results := take (Z.to_nat bs) rows; last_seq := seq_of x |})
    as Hfetch.
  { rewrite Hcoll. unfold feed_changes. rewrite Hrows.
    rewrite last_lookup, Htake, lookup_take_lt by lia. by rewrite Hlook. }
  split; [done |]. split; [done |]. split.
  - rewrite (retry_loop_round_filtered oracle coll h f bs sr _ _ _ _ Hfetch).
    + cbn [results last_seq]. rewrite Htake.
      by replace (Z.of_nat (Z.to_nat bs) =? bs) with true
        by (symmetry; apply Z.eqb_eq; lia).
    + cbn [results]. apply Forall_take.
      eapply Forall_impl; [exact Hnone |]. cbn. congruence.
  - replace (Z.to_nat bs) with (S (pred (Z.to_nat bs))) at 1 by lia.
    by eapply feed_after_lookup.
Qed.

(** A round over a window shorter than [batchSize] of rows that the
    filter all drops: the loop returns the empty batch, with the sequence
    of the last row of the feed. *)
Lemma scan_short_window cursor rows rounds w :
  filter (fun change => cursor < seq_of change) feed = rows ->
  Forall (fun change => pushable oracle h f change = false) rows ->
  (length rows < Z.to_nat bs)%nat ->
  pouch_changes coll (JNum cursor) bs
    = inr {| results := rows;
             last_seq := default cursor (seq_of <$> last rows) |} /\
  retry_loop oracle coll (S rounds) h f bs sr (JNum cursor) w
    = (Returned {| results := [];
                   last_seq := default cursor (seq_of <$> last rows) |},
       logged w (CallChanges (JNum cursor) bs)).
Proof.
  intros Hrows Hnone Hlen.
  assert (pouch_changes coll (JNum cursor) bs
          = inr {| results := rows;
                   last_seq := default cursor (seq_of <$> last rows) |})
    as Hfetch.
  { rewrite Hcoll. unfold feed_changes. rewrite Hrows.
    by rewrite take_ge by lia. }
  split; [done |].
  rewrite (retry_loop_round_filtered oracle coll h f bs sr _ _ _ _ Hfetch).
  - cbn [results last_seq].
    by replace (Z.of_nat (length rows) =? bs) with false
      by (symmetry; apply Z.eqb_neq; lia).
  - cbn [results]. eapply Forall_impl; [exact Hnone |]. cbn. congruence.
Qed.

End FeedScan.

Lemma cursor_of_read ident h w v :
  fst (getLastPushSequence ident h w) = Returned v -> cursor_of ident h w = v.
Proof.
  rewrite getLastPushSequence_run. cbn [fst]. unfold cursor_of. congruence.
Qed.

(** C3. On a feed that holds, after the push checkpoint, twenty-five changes
    in sequence order, none of which the filter keeps, a call with
    [batchSize = 10] fetches exactly three windows, of ten, ten and five
    rows, each from the last sequence of the one before; it returns, without
    throwing, the empty batch whose [last_seq] is the sequence of the last
    change of the feed, and leaves the store as it was. *)
Theorem progress_under_total_filtering (ident : string)
    (oracle : string -> JsVal -> bool) (coll : RxCollection)
    (feed rows : list PouchChangeRow) (h f : string) (sr : bool)
    (cursor : Z) (rounds : nat) (w : World) :
  pouch_changes coll = feed_changes feed ->
  fst (getLastPushSequence ident h w) = Returned (JNum cursor) ->
  filter (fun change => cursor < seq_of change) feed = rows ->
  StronglySorted feed_order rows ->
  length rows = 25%nat ->
  Forall (fun change => pushable oracle h f change = false) rows ->
  (3 <= rounds)%nat ->
  exists x10 x20 x25 w',
    rows !! 9%nat = Some x10 /\ rows !! 19%nat = Some x20 /\ last rows = Some x25 /\
    pouch_changes coll (JNum cursor) 10
      = inr {| results := take 10 rows; last_seq := seq_of x10 |} /\
    pouch_changes coll (JNum (seq_of x10)) 10
      = inr {| results := take 10 (drop 10 rows); last_seq := seq_of x20 |} /\
    pouch_changes coll (JNum (seq_of x20)) 10
      = inr {| results := drop 20 rows; last_seq := seq_of x25 |} /\
    length (take 10 rows) = 10%nat /\
    length (take 10 (drop 10 rows)) = 10%nat /\
    length (drop 20 rows) = 5%nat /\
    getChangesSinceLastPushSequence ident oracle coll rounds h f 10 sr w
      = (Returned {| results := []; last_seq := seq_of x25 |}, w') /\
    calls w' = (calls w ++ [CallFindLocal (pushSequenceId ident h);
                            CallChanges (JNum cursor) 10;
                            CallChanges (JNum (seq_of x10)) 10;
                            CallChanges (JNum (seq_of x20)) 10])%list /\
    localDocumentsStore w' = localDocumentsStore w.
Proof.
  intros Hcoll Hcursor Hrows Hsorted Hlen Hnone Hrounds.
  destruct (lookup_lt_is_Some_2 rows 9) as [x10 H10]; [lia |].
  destruct (lookup_lt_is_Some_2 rows 19) as [x20 H20]; [lia |].
  destruct (lookup_lt_is_Some_2 rows 24) as [x25 H25]; [lia |].
  assert (last rows = Some x25) as Hlast by (by rewrite last_lookup, Hlen).
  destruct rounds as [| [| [| rounds]]]; try lia.
  set (w0 := logged w (CallFindLocal (pushSequenceId ident h))).
  destruct (scan_full_window oracle coll h f 10 sr feed Hcoll eq_refl
              cursor rows x10 (S (S rounds)) w0 Hrows Hsorted Hnone H10)
    as (Hfetch1 & Hlen1 & Hstep1 & Hrest1).
  change (Z.to_nat 10) with 10%nat in *.
  destruct (scan_full_window oracle coll h f 10 sr feed Hcoll eq_refl
              (seq_of x10) (drop 10 rows) x20 (S rounds)
              (logged w0 (CallChanges (JNum cursor) 10)) Hrest1)
    as (Hfetch2 & Hlen2 & Hstep2 & Hrest2).
  { by apply StronglySorted_drop. }
  { by apply Forall_drop. }
  { by rewrite lookup_drop. }
  change (Z.to_nat 10) with 10%nat in *.
  rewrite drop_drop in Hrest2. change (10 + 10)%nat with 20%nat in Hrest2.
  destruct (scan_short_window oracle coll h f 10 sr feed Hcoll eq_refl
              (seq_of x20) (drop 20 rows) rounds
              (logged (logged w0 (CallChanges (JNum cursor) 10))
                 (CallChanges (JNum (seq_of x10)) 10)) Hrest2)
    as (Hfetch3 & Hstep3).
  { by apply Forall_drop. }
  { rewrite length_drop. change (Z.to_nat 10) with 10%nat. lia. }
  assert (last (drop 20 rows) = Some x25) as Hlast3.
  { rewrite last_lookup, lookup_drop, length_drop, Hlen. exact H25. }
  rewrite Hlast3 in Hfetch3, Hstep3. cbn [fmap option_fmap option_map default] in *.
  exists x10, x20, x25. eexists.
  repeat (split; [first [done | by rewrite length_drop, Hlen] |]).
  rewrite getChanges_run, (cursor_of_read _ _ _ _ Hcursor).
  fold w0. rewrite Hstep1, Hstep2, Hstep3. cbn [results last_seq map].
  split; [reflexivity |]. split; [| reflexivity].
  cbn [calls logged w0]. by rewrite <- !app_assoc.
Qed.

Lemma progress_under_total_filtering_witness :
  exists x10 x20 x25 w',
    pulled_feed !! 9%nat = Some x10 /\ pulled_feed !! 19%nat = Some x20 /\
    last pulled_feed = Some x25 /\
    pouch_changes (feed_collection pulled_feed "name") (JNum 0) 10
      = inr {| results := take 10 pulled_feed; last_seq := seq_of x10 |} /\
    pouch_changes (feed_collection pulled_feed "name") (JNum (seq_of x10)) 10
      = inr {| results := take 10 (drop 10 pulled_feed); last_seq := seq_of x20 |} /\
    pouch_changes (feed_collection pulled_feed "name") (JNum (seq_of x20)) 10
      = inr {| results := drop 20 pulled_feed; last_seq := seq_of x25 |} /\
    length (take 10 pulled_feed) = 10%nat /\
    length (take 10 (drop 10 pulled_feed)) = 10%nat /\
    length (drop 20 pulled_feed) = 5%nat /\
    getChangesSinceLastPushSequence "rxdbreplicationgraphql" sample_oracle
      (feed_collection pulled_feed "name") 3 "endpoint" "last_pulled_rev" 10 false
      empty_world
      = (Returned {| results := []; last_seq := seq_of x25 |}, w') /\
    calls w' = (calls empty_world
                 ++ [CallFindLocal (pushSequenceId "rxdbreplicationgraphql" "endpoint");
                     CallChanges (JNum 0) 10;
                     CallChanges (JNum (seq_of x10)) 10;
                     CallChanges (JNum (seq_of x20)) 10])%list /\
    localDocumentsStore w' = localDocumentsStore empty_world.
Proof.
  apply (progress_under_total_filtering "rxdbreplicationgraphql" sample_oracle
           (feed_collection pulled_feed "name") pulled_feed pulled_feed
           "endpoint" "last_pulled_rev" false 0 3 empty_world).
  - reflexivity.
  - reflexivity.
  - vm_compute. reflexivity.
  - unfold pulled_feed. cbn [map seq].
    repeat (apply SSorted_cons;
            [| repeat (constructor; [vm_compute; reflexivity |]); constructor]).
    apply SSorted_nil.
  - reflexivity.
  - unfold pulled_feed. cbn [map seq].
    repeat (constructor; [vm_compute; reflexivity |]). constructor.
  - lia.
Defined.

(** C7. On a feed of exactly three changes, [A] at sequence 1, [B] at
    sequence 2 with a revision the oracle reports as pulled, and [C] at
    sequence 3, where the filter keeps [A] and [C], a call for an endpoint
    whose cursor is before the feed, with [batchSize = 10] and without
    refresh, returns the records of [A] and [C], in that order, and
    [last_seq = 3]. *)
Theorem batch_shape (ident : string) (oracle : string -> JsVal -> bool)
    (coll : RxCollection) (h f : string) (A B C : PouchChangeRow)
    (cursor : Z) (rounds : nat) (w : World) :
  pouch_changes coll = feed_changes [A; B; C] ->
  row_seq A = Some 1 -> row_seq B = Some 2 -> row_seq C = Some 3 ->
  pushable oracle h f A = true ->
  oracle h (get_field (row_doc B) "_rev") = true ->
  pushable oracle h f C = true ->
  fst (getLastPushSequence ident h w) = Returned (JNum cursor) ->
  cursor < 1 ->
  (1 <= rounds)%nat ->
  fst (getChangesSinceLastPushSequence ident oracle coll rounds h f 10 false w)
    = Returned {| results := [fromPouch coll A; fromPouch coll C]; last_seq := 3 |}.
Proof.
  intros Hcoll HA HB HC HpA HfB HpC Hcursor Hbefore Hrounds.
  destruct rounds as [| rounds]; [lia |].
  assert (pouch_changes coll (JNum cursor) 10
          = inr {| results := [A; B; C]; last_seq := 3 |}) as Hfetch.
  { rewrite Hcoll. unfold feed_changes.
    rewrite !filter_cons_True by (unfold seq_of; rewrite ?HA, ?HB, ?HC; cbn; lia).
    rewrite filter_nil. change (Z.to_nat 10) with 10%nat.
    cbn [take last fmap option_fmap option_map default].
    unfold seq_of. by rewrite HC. }
  assert (filteredResults oracle h f {| results := [A; B; C]; last_seq := 3 |}
          = [A; C]) as Hkept.
  { unfold filteredResults. cbn [results].
    rewrite filter_cons_True by done.
    rewrite filter_cons_False by (unfold pushable; rewrite HfB; discriminate).
    by rewrite filter_cons_True by done. }
  rewrite getChanges_run, (cursor_of_read _ _ _ _ Hcursor).
  rewrite (retry_loop_round oracle coll h f 10 false _ _ _ _ Hfetch), Hkept.
  reflexivity.
Qed.

Lemma batch_shape_witness :
  fst (getChangesSinceLastPushSequence "rxdbreplicationgraphql" sample_oracle
         (feed_collection (take 3 sample_feed) "name") 1 "endpoint"
         "last_pulled_rev" 10 false empty_world)
    = Returned
        {| results :=
             [ fromPouch (feed_collection (take 3 sample_feed) "name")
                 (change_row 1 "alice" "1-a" "age" (JNum 30));
               fromPouch (feed_collection (take 3 sample_feed) "name")
                 (change_row 3 "carol" "1-c" "age" (JNum 25)) ];
           last_seq := 3 |}.
Proof.
  apply (batch_shape "rxdbreplicationgraphql" sample_oracle
           (feed_collection (take 3 sample_feed) "name") "endpoint" "last_pulled_rev"
           (change_row 1 "alice" "1-a" "age" (JNum 30))
           (change_row 2 "bob" "2-b-pull" "age" (JNum 41))
           (change_row 3 "carol" "1-c" "age" (JNum 25))
           0 1 empty_world); first [reflexivity | lia].
Defined.

(** * Further properties of the checkpoints *)

(** ** The keys of the local documents *)

(** X3. The keys of the checkpoint records tell the endpoints apart, and a
    push key is never a pull key. *)
Theorem checkpoint_keys_separate (ident h h' : string) :
  (pushSequenceId ident h = pushSequenceId ident h' -> h = h') /\
  (pullLastDocumentId ident h = pullLastDocumentId ident h' -> h = h') /\
  pushSequenceId ident h <> pullLastDocumentId ident h'.
Proof.
  unfold pushSequenceId, pullLastDocumentId. repeat split.
  - intros H. apply (inj (String.append ident)) in H.
    by apply (inj (String.append "-push-checkpoint-")) in H.
  - intros H. apply (inj (String.append ident)) in H.
    by apply (inj (String.append "-pull-checkpoint-")) in H.
  - intros H. apply (inj (String.append ident)) in H. discriminate.
Qed.

Lemma push_key_inj ident h h' :
  h <> h' -> pushSequenceId ident h <> pushSequenceId ident h'.
Proof.
  intros Hne H. apply Hne. unfold pushSequenceId in H.
  apply (inj (String.append ident)) in H.
  by apply (inj (String.append "-push-checkpoint-")) in H.
Qed.

Lemma pull_key_inj ident h h' :
  h <> h' -> pullLastDocumentId ident h <> pullLastDocumentId ident h'.
Proof.
  intros Hne H. apply Hne. unfold pullLastDocumentId in H.
  apply (inj (String.append ident)) in H.
  by apply (inj (String.append "-pull-checkpoint-")) in H.
Qed.

Lemma push_key_not_pull ident h h' :
  pushSequenceId ident h <> pullLastDocumentId ident h'.
Proof.
  unfold pushSequenceId, pullLastDocumentId. intros H.
  apply (inj (String.append ident)) in H. discriminate.
Qed.

(** ** The pull checkpoint *)

Lemma writeSingleLocal_accepts d key w :
  get_field d "_id" = JStr key ->
  get_field d "_rev" =
    match localDocumentsStore w !! key with
    | None => JUndefined
    | Some e => JStr (rev_string (generation e))
    end ->
  writeSingleLocal false d w =
    (Returned
       (stored_doc key
          {| generation :=
               match localDocumentsStore w !! key with
               | None => 1%N
               | Some e => N.succ (generation e)
               end;
             body := d |}),
     {| localDocumentsStore :=
          <[key :=
              {| generation :=
                   match localDocumentsStore w !! key with
                   | None => 1%N
                   | Some e => N.succ (generation e)
                   end;
                 body := d |}]> (localDocumentsStore w);
        calls := calls w ++ [CallWriteLocal d] |}).
Proof.
  intros Hid Hrev.
  unfold writeSingleLocal, bind, record_call. cbn [fst snd].
  rewrite Hid. cbn [localDocumentsStore calls].
  destruct (localDocumentsStore w !! key) as [e |]; rewrite Hrev; cbn.
  - by rewrite String.eqb_refl.
  - reflexivity.
Qed.

Lemma pull_doc_id ident h doc w :
  get_field (pull_doc ident h doc w) "_id" = JStr (pullLastDocumentId ident h).
Proof.
  unfold pull_doc, get_field, stored_doc.
  destruct (localDocumentsStore w !! pullLastDocumentId ident h);
    by simplify_map_eq.
Qed.

Lemma pull_doc_rev ident h doc w :
  get_field (pull_doc ident h doc w) "_rev" =
    match localDocumentsStore w !! pullLastDocumentId ident h with
    | None => JUndefined
    | Some e => JStr (rev_string (generation e))
    end.
Proof.
  unfold pull_doc, get_field, stored_doc.
  destruct (localDocumentsStore w !! pullLastDocumentId ident h);
    by simplify_map_eq.
Qed.

Lemma pull_doc_doc ident h doc w : get_field (pull_doc ident h doc w) "doc" = doc.
Proof.
  unfold pull_doc, get_field.
  destruct (localDocumentsStore w !! pullLastDocumentId ident h);
    by simplify_map_eq.
Qed.

Lemma setLastPullDocument_run ident h doc w :
  setLastPullDocument ident h doc w =
    (Returned (stored_doc (pullLastDocumentId ident h) (pull_entry ident h doc w)),
     {| localDocumentsStore :=
          <[pullLastDocumentId ident h := pull_entry ident h doc w]>
            (localDocumentsStore w);
        calls := calls w ++ [CallFindLocal (pullLastDocumentId ident h);
                             CallWriteLocal (pull_doc ident h doc w)] |}).
Proof.
  unfold setLastPullDocument.
  erewrite bind_run_returned by apply findLocalDocument_run.
  pose proof (pull_doc_id ident h doc w) as Hid.
  pose proof (pull_doc_rev ident h doc w) as Hrev.
  unfold pull_entry. unfold pull_doc in *.
  set (key := pullLastDocumentId ident h) in *.
  destruct (localDocumentsStore w !! key) as [e |] eqn:He;
    cbn [fmap option_fmap option_map].
  - rewrite (writeSingleLocal_accepts _ key) by (cbn [logged localDocumentsStore]; by rewrite ?He).
    cbn [logged localDocumentsStore calls]. rewrite He. by rewrite <- app_assoc.
  - rewrite (writeSingleLocal_accepts _ key) by (cbn [logged localDocumentsStore]; by rewrite ?He).
    cbn [logged localDocumentsStore calls]. rewrite He. by rewrite <- app_assoc.
Qed.

(** X1. [setLastPullDocument] and [getLastPullDocument] round trip, for every
    document value: the getter returns what the setter stored; the returned
    record has the pull key as [_id] and the document as [doc]; a second
    call writes with the revision the first one returned, gets a new
    revision and adds no record. *)
Theorem pull_document_round_trip (ident h : string) (doc doc' : JsVal) (w : World) :
  exists r1 w1 r2 w2,
    setLastPullDocument ident h doc w = (Returned r1, w1) /\
    fst (getLastPullDocument ident h w1) = Returned doc /\
    get_field r1 "_id" = JStr (pullLastDocumentId ident h) /\
    get_field r1 "doc" = doc /\
    setLastPullDocument ident h doc' w1 = (Returned r2, w2) /\
    fst (getLastPullDocument ident h w2) = Returned doc' /\
    (exists written,
        last (calls w2) = Some (CallWriteLocal written) /\
        get_field written "_rev" = get_field r1 "_rev") /\
    get_field r2 "_rev" <> get_field r1 "_rev" /\
    dom (localDocumentsStore w2) = dom (localDocumentsStore w1).
Proof.
  assert (forall d w0,
             fst (getLastPullDocument ident h
                    (snd (setLastPullDocument ident h d w0))) = Returned d)
    as Hread.
  { intros d w0. rewrite setLastPullDocument_run, getLastPullDocument_run.
    cbn [fst snd localDocumentsStore]. rewrite lookup_insert_eq.
    unfold stored_doc, get_field. cbn [body pull_entry]. simplify_map_eq.
    fold (get_field (pull_doc ident h d w0) "doc"). by rewrite pull_doc_doc. }
  do 4 eexists.
  split; [apply setLastPullDocument_run |].
  split.
  { pose proof (Hread doc w) as H. by rewrite setLastPullDocument_run in H. }
  split; [apply stored_doc_id |].
  split.
  { unfold stored_doc, get_field. cbn [body pull_entry]. simplify_map_eq.
    fold (get_field (pull_doc ident h doc w) "doc"). by rewrite pull_doc_doc. }
  split; [apply setLastPullDocument_run |].
  split.
  { pose proof (Hread doc' (snd (setLastPullDocument ident h doc w))) as H.
    by rewrite !setLastPullDocument_run in H. }
  split.
  { eexists. split.
    - cbn [calls]. apply last_snoc2.
    - rewrite pull_doc_rev, stored_doc_rev.
      cbn [localDocumentsStore]. by rewrite lookup_insert_eq. }
  split.
  { rewrite !stored_doc_rev. cbn [generation pull_entry localDocumentsStore].
    rewrite lookup_insert_eq. cbn [generation].
    intros H.
    exact (rev_string_succ _
             (f_equal (fun v => match v with JStr r => r | _ => "" end) H)). }
  cbn [localDocumentsStore]. rewrite !dom_insert_L.
  by rewrite (assoc_L (∪)), (idemp_L (∪)).
Qed.

(** ** Runs of push-checkpoint calls *)

(** X2. Over any run of [getLastPushSequence] and [setLastPushSequence]
    calls for an endpoint, every call returns and the stored sequence ends
    as the one the latest [setLastPushSequence] was given; a run without
    one leaves it as it was. *)
Theorem push_sequence_last_write_wins (ident h : string)
    (cs : list CheckpointCall) (w : World) :
  length (stored_history ident h cs w) = length cs /\
  default (stored_sequence ident h w) (last (stored_history ident h cs w))
    = latest_set (stored_sequence ident h w) cs.
Proof.
  split; [apply stored_history_length |].
  revert w. induction cs as [| c cs IH]; intros w; [reflexivity |].
  destruct (run_call_returns ident h c w) as (w' & Hrun & Hseq).
  cbn [stored_history]. rewrite Hrun.
  specialize (IH w').
  assert (latest_set (stored_sequence ident h w) (c :: cs)
          = latest_set (stored_sequence ident h w') cs) as ->.
  { rewrite Hseq. by destruct c. }
  rewrite <- IH.
  destruct (stored_history ident h cs w') as [| x l] eqn:Hrest; [reflexivity |].
  rewrite last_cons_cons.
  destruct (proj2 (last_is_Some (x :: l))) as [y ->]; done.
Qed.

(** ** Checkpoints of different endpoints and directions *)

(** X4. Setting the push checkpoint of an endpoint changes neither the push
    checkpoint of another endpoint nor any pull checkpoint; setting its pull
    checkpoint changes neither the pull checkpoint of another endpoint nor
    any push checkpoint. *)
Theorem checkpoints_isolated (ident h : string) (v : JsVal) (w : World) :
  (forall h', h' <> h ->
     fst (getLastPushSequence ident h' (snd (setLastPushSequence ident h v w)))
       = fst (getLastPushSequence ident h' w)) /\
  (forall h',
     fst (getLastPullDocument ident h' (snd (setLastPushSequence ident h v w)))
       = fst (getLastPullDocument ident h' w)) /\
  (forall h',
     fst (getLastPushSequence ident h' (snd (setLastPullDocument ident h v w)))
       = fst (getLastPushSequence ident h' w)) /\
  (forall h', h' <> h ->
     fst (getLastPullDocument ident h' (snd (setLastPullDocument ident h v w)))
       = fst (getLastPullDocument ident h' w)).
Proof.
  rewrite setLastPushSequence_run, setLastPullDocument_run.
  repeat split; intros h'; intros;
    rewrite ?getLastPushSequence_run, ?getLastPullDocument_run;
    cbn [fst snd localDocumentsStore]; rewrite lookup_insert_ne; try done.
  - by apply push_key_inj.
  - apply push_key_not_pull.
  - intros H. by apply (push_key_not_pull ident h' h).
  - by apply pull_key_inj.
Qed.

(** ** Reading functions *)

Lemma reads_only_refl w : reads_only w w.
Proof. split; [done |]. exists []. by rewrite app_nil_r. Qed.

Lemma reads_only_logged w w' c :
  reads_only w w' -> is_write c = false -> reads_only w (logged w' c).
Proof.
  intros [Hstore (added & Hcalls & Hreads)] Hc. split; [done |].
  exists (added ++ [c])%list. cbn [logged calls]. rewrite Hcalls, app_assoc.
  split; [done |]. apply Forall_app. split; [done |]. by constructor.
Qed.

Lemma reads_only_after_round bs sr w w' since l :
  reads_only w w' -> reads_only w (after_round bs sr w' since l).
Proof.
  intros H. unfold after_round.
  destruct (_ && _); repeat apply reads_only_logged; done.
Qed.

Lemma retry_loop_reads oracle coll rounds h f bs sr since w0 w :
  reads_only w0 w ->
  reads_only w0 (snd (retry_loop oracle coll rounds h f bs sr since w)).
Proof.
  revert since w. induction rounds as [| rounds IH]; intros since w Hw; [done |].
  destruct (pouch_changes coll since bs) as [e | changes] eqn:Hfetch.
  - rewrite (retry_loop_fetch_fails _ _ _ _ _ _ _ _ _ _ Hfetch).
    by apply reads_only_logged.
  - rewrite (retry_loop_round _ _ _ _ _ _ _ _ _ _ Hfetch).
    destruct (use_results _ _ _) as [e | useResults]; cbn [snd].
    + by apply reads_only_after_round.
    + destruct (retries _ _ _); cbn [snd].
      * apply IH. by apply reads_only_after_round.
      * by apply reads_only_after_round.
Qed.

Lemma getChanges_reads ident oracle coll rounds h f bs sr w :
  reads_only w
    (snd (getChangesSinceLastPushSequence ident oracle coll rounds h f bs sr w)).
Proof.
  rewrite getChanges_run.
  pose proof (retry_loop_reads oracle coll rounds h f bs sr (cursor_of ident h w) w
                (logged w (CallFindLocal (pushSequenceId ident h)))
                (reads_only_logged w w (CallFindLocal (pushSequenceId ident h))
                   (reads_only_refl w) eq_refl)) as H.
  by destruct (retry_loop _ _ _ _ _ _ _ _ _) as [[changes | e |] w1].
Qed.

(** X5. The reading functions never write: whatever the outcome,
    [getLastPushSequence], [getLastPullDocument] and
    [getChangesSinceLastPushSequence] leave the local documents store as it
    was and make no [writeSingleLocal] call. In particular the cursor the
    retry loop advances is not persisted. *)
Theorem readers_never_write (ident : string) (oracle : string -> JsVal -> bool)
    (coll : RxCollection) (rounds : nat) (h f : string) (bs : Z) (sr : bool)
    (w : World) :
  reads_only w (snd (getLastPushSequence ident h w)) /\
  reads_only w (snd (getLastPullDocument ident h w)) /\
  reads_only w
    (snd (getChangesSinceLastPushSequence ident oracle coll rounds h f bs sr w)) /\
  fst (getLastPushSequence ident h
         (snd (getChangesSinceLastPushSequence ident oracle coll rounds h f bs sr w)))
    = fst (getLastPushSequence ident h w).
Proof.
  split; [| split; [| split]].
  - rewrite getLastPushSequence_run.
    by apply reads_only_logged; [apply reads_only_refl |].
  - rewrite getLastPullDocument_run.
    by apply reads_only_logged; [apply reads_only_refl |].
  - apply getChanges_reads.
  - destruct (getChanges_reads ident oracle coll rounds h f bs sr w) as [Hstore _].
    rewrite !getLastPushSequence_run. cbn [fst]. by rewrite Hstore.
Qed.

Lemma retry_loop_outcome_world oracle coll rounds h f bs sr since w w0 :
  fst (retry_loop oracle coll rounds h f bs sr since w)
    = fst (retry_loop oracle coll rounds h f bs sr since w0).
Proof.
  revert since w w0. induction rounds as [| rounds IH]; intros since w w0; [done |].
  destruct (pouch_changes coll since bs) as [e | changes] eqn:Hfetch.
  - by rewrite !(retry_loop_fetch_fails _ _ _ _ _ _ _ _ _ _ Hfetch).
  - rewrite !(retry_loop_round _ _ _ _ _ _ _ _ _ _ Hfetch).
    destruct (use_results _ _ _) as [e | useResults]; [done |].
    destruct (retries _ _ _); [apply IH | done].
Qed.

Lemma getChanges_outcome_store ident oracle coll rounds h f bs sr w w0 :
  localDocumentsStore w = localDocumentsStore w0 ->
  fst (getChangesSinceLastPushSequence ident oracle coll rounds h f bs sr w)
    = fst (getChangesSinceLastPushSequence ident oracle coll rounds h f bs sr w0).
Proof.
  intros Hstore. rewrite !getChanges_run. unfold cursor_of. rewrite Hstore.
  pose proof (retry_loop_outcome_world oracle coll rounds h f bs sr
                match localDocumentsStore w0 !! pushSequenceId ident h with
                | Some e => get_field (stored_doc (pushSequenceId ident h) e) "value"
                | None => JNum 0
                end
                (logged w (CallFindLocal (pushSequenceId ident h)))
                (logged w0 (CallFindLocal (pushSequenceId ident h)))) as H.
  destruct (retry_loop _ _ _ _ _ _ _ _ (logged w _)) as [[c1 | e1 |] w1];
    destruct (retry_loop _ _ _ _ _ _ _ _ (logged w0 _)) as [[c2 | e2 |] w2];
    cbn [fst] in *; congruence.
Qed.

(** X6. Until the push checkpoint is set, the selection can be repeated:
    a call made after an earlier call, with whatever arguments the earlier
    one had, ends as it would have ended without it. *)
Theorem selection_repeatable (ident : string) (oracle : string -> JsVal -> bool)
    (coll : RxCollection) (rounds rounds' : nat) (h f h' f' : string)
    (bs bs' : Z) (sr sr' : bool) (w : World) :
  fst (getChangesSinceLastPushSequence ident oracle coll rounds h f bs sr
         (snd (getChangesSinceLastPushSequence ident oracle coll rounds' h' f' bs' sr' w)))
    = fst (getChangesSinceLastPushSequence ident oracle coll rounds h f bs sr w).
Proof.
  apply getChanges_outcome_store.
  by destruct (getChanges_reads ident oracle coll rounds' h' f' bs' sr' w).
Qed.

(** * Further properties of the batch *)

(** X7. Design documents are never pushed: a row whose identifier starts
    with [_design/] is not among the rows a returned batch is made of and
    is not asked for in the refresh; without refresh, and with a refresh
    that [bulkGet] answers with one result for each request, under the
    identifier asked for, no returned record has such an identifier. *)
Theorem design_documents_not_pushed (ident : string)
    (oracle : string -> JsVal -> bool)
    (coll : RxCollection) (rounds : nat) (h f : string) (bs : Z) (sr : bool)
    (w w' : World) (batch : PouchdbChangesResult) :
  getChangesSinceLastPushSequence ident oracle coll rounds h f bs sr w
    = (Returned batch, w') ->
  exists since changes,
    pouch_changes coll since bs = inr changes /\
    batch_built_from coll sr (filteredResults oracle h f changes) (results batch) /\
    (forall change,
        startsWith (row_id change) "_design/" = true ->
        change ∉ filteredResults oracle h f changes) /\
    (forall q,
        q ∈ map docsSearch (filteredResults oracle h f changes) ->
        startsWith (search_id q) "_design/" = false) /\
    (sr = false ->
     forall r, r ∈ results batch -> startsWith (row_id r) "_design/" = false) /\
    (sr = true ->
     forall bulkGetDocs,
       pouch_bulkGet coll (map docsSearch (filteredResults oracle h f changes))
         = inr bulkGetDocs ->
       answers_under_ids (map docsSearch (filteredResults oracle h f changes))
         bulkGetDocs ->
       forall r, r ∈ results batch -> startsWith (row_id r) "_design/" = false).
Proof.
  intros Hrun.
  apply getChanges_returned in Hrun as (since & changes & Hfetch & Hbuilt & _).
  assert (forall change, change ∈ filteredResults oracle h f changes ->
                         startsWith (row_id change) "_design/" = false) as Hkept.
  { intros change Hin. apply filteredResults_elem in Hin as [Hpush _].
    by apply pushable_spec in Hpush as (_ & _ & Hid). }
  exists since, changes. split; [done |]. split; [done |].
  split; [| split; [| split]].
  - intros change Hdesign Hin. apply Hkept in Hin. congruence.
  - intros q Hq. apply elem_of_map in Hq as (change & -> & Hin).
    by apply Hkept.
  - intros -> r Hr.
    destruct (batch_built_direct _ _ _ _ Hbuilt Hr) as (change & Hin & ->).
    cbn [row_id fromPouch]. by apply Hkept.
  - intros -> docs Hbulk Hasked r Hr.
    destruct (filteredResults oracle h f changes) as [| kept rest] eqn:Hsel.
    { cbn in Hbuilt. rewrite Hbuilt in Hr. by apply elem_of_nil in Hr. }
    rewrite <- Hsel in *.
    assert (filteredResults oracle h f changes <> []) as Hne by by rewrite Hsel.
    pose proof (batch_built_under_ids _ _ _ _ Hbuilt Hne Hbulk Hasked) as Hids.
    apply list_elem_of_lookup in Hr as [i Hi].
    destruct (Forall2_lookup_r _ _ _ _ _ Hids Hi) as (change & Hchange & Hid).
    rewrite Hid. by eapply Hkept, list_elem_of_lookup_2.
Qed.

Lemma design_documents_not_pushed_witness :
  exists since changes,
    pouch_changes (feed_collection
                     [change_row 1 "_design/idx" "1-i" "views" JNull;
                      change_row 2 "erin" "1-e" "age" (JNum 52)] "name")
      since 10 = inr changes /\
    (change_row 1 "_design/idx" "1-i" "views" JNull
       ∉ filteredResults sample_oracle "endpoint" "last_pulled_rev" changes) /\
    startsWith
      (row_id (fromPouch (feed_collection
                            [change_row 1 "_design/idx" "1-i" "views" JNull;
                             change_row 2 "erin" "1-e" "age" (JNum 52)] "name")
                 (change_row 2 "erin" "1-e" "age" (JNum 52))))
      "_design/" = false.
Proof.
  destruct (design_documents_not_pushed "rxdbreplicationgraphql" sample_oracle
              (feed_collection
                 [change_row 1 "_design/idx" "1-i" "views" JNull;
                  change_row 2 "erin" "1-e" "age" (JNum 52)] "name")
              1 "endpoint" "last_pulled_rev" 10 false empty_world
              (snd (getChangesSinceLastPushSequence "rxdbreplicationgraphql"
                      sample_oracle
                      (feed_collection
                         [change_row 1 "_design/idx" "1-i" "views" JNull;
                          change_row 2 "erin" "1-e" "age" (JNum 52)] "name")
                      1 "endpoint" "last_pulled_rev" 10 false empty_world))
              {| results :=
                   [fromPouch (feed_collection
                                 [change_row 1 "_design/idx" "1-i" "views" JNull;
                                  change_row 2 "erin" "1-e" "age" (JNum 52)] "name")
                      (change_row 2 "erin" "1-e" "age" (JNum 52))];
                 last_seq := 2 |})
    as (since & changes & Hfetch & _ & Hout & _ & Hdirect & _).
  - vm_compute. reflexivity.
  - exists since, changes. split; [exact Hfetch |]. split.
    + apply Hout. reflexivity.
    + apply (Hdirect eq_refl). apply list_elem_of_here.
Defined.

(** X8. Without refresh the batch keeps the order of the feed: the
    identifiers, sequences and deleted flags of the returned records are
    those of the rows of the last window, in the same order, each row at
    most once; the batch is never longer than the window. *)
Theorem feed_order_kept (ident : string) (oracle : string -> JsVal -> bool)
    (coll : RxCollection) (rounds : nat) (h f : string) (bs : Z)
    (w w' : World) (batch : PouchdbChangesResult) :
  getChangesSinceLastPushSequence ident oracle coll rounds h f bs false w
    = (Returned batch, w') ->
  exists since changes,
    pouch_changes coll since bs = inr changes /\
    last_seq batch = last_seq changes /\
    (map (fun r => (row_id r, row_seq r, row_deleted r)) (results batch)
       `sublist_of`
     map (fun r => (row_id r, row_seq r, row_deleted r)) (results changes)) /\
    (length (results batch) <= length (results changes))%nat.
Proof.
  intros Hrun.
  apply getChanges_returned
    in Hrun as (since & changes & Hfetch & Hbuilt & Hseq & _).
  exists since, changes. split; [done |]. split; [done |].
  unfold batch_built_from in Hbuilt. rewrite andb_false_r in Hbuilt.
  rewrite Hbuilt.
  assert (filteredResults oracle h f changes `sublist_of` results changes) as Hsub
    by apply sublist_filter.
  split.
  - rewrite map_map. cbn [fromPouch row_id row_seq row_deleted].
    change (map (fun r => (row_id r, row_seq r, row_deleted r))
              (filteredResults oracle h f changes))
      with ((fun r => (row_id r, row_seq r, row_deleted r))
              <$> filteredResults oracle h f changes).
    change (map (fun r => (row_id r, row_seq r, row_deleted r)) (results changes))
      with ((fun r => (row_id r, row_seq r, row_deleted r)) <$> results changes).
    by apply fmap_sublist.
  - rewrite length_map. by apply sublist_length.
Qed.

Lemma feed_order_kept_witness :
  exists since changes,
    pouch_changes sample_collection since 10 = inr changes /\
    last_seq sample_batch = last_seq changes /\
    (map (fun r => (row_id r, row_seq r, row_deleted r)) (results sample_batch)
       `sublist_of`
     map (fun r => (row_id r, row_seq r, row_deleted r)) (results changes)) /\
    (length (results sample_batch) <= length (results changes))%nat.
Proof.
  apply (feed_order_kept "rxdbreplicationgraphql" sample_oracle sample_collection
           1 "endpoint" "last_pulled_rev" 10 empty_world
           (snd (getChangesSinceLastPushSequence "rxdbreplicationgraphql"
                   sample_oracle sample_collection 1 "endpoint" "last_pulled_rev"
                   10 false empty_world))
           sample_batch).
  vm_compute. reflexivity.
Defined.

(** X9. A returned empty batch never comes from a full window: the last
    window fetched had a number of rows other than [batchSize], its
    [last_seq] is the one returned, and without refresh the filter kept none
    of its rows. *)
Theorem empty_batch_from_short_window (ident : string)
    (oracle : string -> JsVal -> bool)
    (coll : RxCollection) (rounds : nat) (h f : string) (bs : Z) (sr : bool)
    (w w' : World) (batch : PouchdbChangesResult) :
  getChangesSinceLastPushSequence ident oracle coll rounds h f bs sr w
    = (Returned batch, w') ->
  results batch = [] ->
  exists since changes,
    pouch_changes coll since bs = inr changes /\
    last_seq batch = last_seq changes /\
    Z.of_nat (length (results changes)) <> bs /\
    (sr = false -> filteredResults oracle h f changes = []).
Proof.
  intros Hrun Hempty.
  apply getChanges_returned
    in Hrun as (since & changes & Hfetch & Hbuilt & Hseq & Hstop & _).
  exists since, changes. split; [done |]. split; [done |]. split.
  - by destruct Hstop.
  - intros ->. unfold batch_built_from in Hbuilt. rewrite andb_false_r in Hbuilt.
    rewrite Hempty in Hbuilt.
    by destruct (filteredResults oracle h f changes).
Qed.

Lemma empty_batch_from_short_window_witness :
  exists since changes,
    pouch_changes (feed_collection pulled_feed "name") since 10 = inr changes /\
    25 = last_seq changes /\
    Z.of_nat (length (results changes)) <> 10 /\
    (false = false ->
     filteredResults sample_oracle "endpoint" "last_pulled_rev" changes = []).
Proof.
  apply (empty_batch_from_short_window "rxdbreplicationgraphql" sample_oracle
           (feed_collection pulled_feed "name") 3 "endpoint" "last_pulled_rev"
           10 false empty_world
           (snd (getChangesSinceLastPushSequence "rxdbreplicationgraphql"
                   sample_oracle (feed_collection pulled_feed "name") 3
                   "endpoint" "last_pulled_rev" 10 false empty_world))
           {| results := []; last_seq := 25 |}).
  - vm_compute. reflexivity.
  - reflexivity.
Defined.

(** ** Errors *)

Lemma fromBulkGet_thrown result e :
  fromBulkGet result = inl e -> e = TypeError /\ lacks_ok result.
Proof.
  unfold fromBulkGet, lacks_ok.
  destruct (bulk_docs result) as [| [ok | err] rest]; intros H; try discriminate;
    injection H as <-; split; try done; intros ok'; cbn; discriminate.
Qed.

Lemma fromBulkGet_lacks result :
  lacks_ok result -> fromBulkGet result = inl TypeError.
Proof.
  unfold fromBulkGet, lacks_ok. intros Hlacks.
  destruct (bulk_docs result) as [| [ok | err] rest]; try done.
  by destruct (Hlacks ok).
Qed.

Lemma map_throwing_lacks bulkGetDocs result :
  result ∈ bulkGetDocs -> lacks_ok result ->
  map_throwing fromBulkGet bulkGetDocs = inl TypeError.
Proof.
  intros Hin Hlacks. induction bulkGetDocs as [| other docs IH].
  - by apply elem_of_nil in Hin.
  - cbn [map_throwing].
    destruct (fromBulkGet other) as [e | row] eqn:Hrow.
    + by apply fromBulkGet_thrown in Hrow as [-> _].
    + apply elem_of_cons in Hin as [-> | Hin].
      * by rewrite (fromBulkGet_lacks _ Hlacks) in Hrow.
      * by rewrite IH.
Qed.

Lemma retry_loop_skips oracle coll h f bs sr since later n rounds w :
  skips_to oracle coll h f bs since later n ->
  exists w',
    retry_loop oracle coll (n + rounds) h f bs sr since w
      = retry_loop oracle coll rounds h f bs sr later w'.
Proof.
  intros Hskips. revert w.
  induction Hskips as [since | since changes later n Hfetch Hnone Hfull _ IH];
    intros w.
  - by exists w.
  - cbn [Nat.add]. rewrite (retry_loop_round _ _ _ _ _ _ _ _ _ _ Hfetch).
    rewrite Hnone, use_results_nil. unfold retries. cbn [length].
    replace (Z.of_nat (length (results changes)) =? bs) with true
      by (symmetry; by apply Z.eqb_eq).
    cbn [Z.of_nat Z.eqb andb]. apply IH.
Qed.

(** X10. A failure of the store is not swallowed. When the loop comes to
    ask the feed with some cursor and [pouch.changes] fails there, the call
    throws that error; when the feed answers there, the filter keeps rows
    of the window and, with [syncRevisions], [pouch.bulkGet] asked for them
    fails, the call throws that error. *)
Theorem store_failures_propagate (ident : string)
    (oracle : string -> JsVal -> bool)
    (coll : RxCollection) (rounds n : nat) (h f : string) (bs : Z) (sr : bool)
    (w : World) (since later : JsVal) (e : Err) :
  fst (getLastPushSequence ident h w) = Returned since ->
  skips_to oracle coll h f bs since later n ->
  (n < rounds)%nat ->
  (pouch_changes coll later bs = inl e ->
   fst (getChangesSinceLastPushSequence ident oracle coll rounds h f bs sr w)
     = Thrown e) /\
  (forall changes,
      pouch_changes coll later bs = inr changes ->
      filteredResults oracle h f changes <> [] ->
      pouch_bulkGet coll (map docsSearch (filteredResults oracle h f changes))
        = inl e ->
      fst (getChangesSinceLastPushSequence ident oracle coll rounds h f bs true w)
        = Thrown e).
Proof.
  intros Hcursor Hskips Hrounds.
  replace rounds with (n + S (rounds - S n))%nat by lia.
  split.
  - intros Hfetch.
    rewrite getChanges_run, (cursor_of_read _ _ _ _ Hcursor).
    destruct (retry_loop_skips oracle coll h f bs sr since later n
                (S (rounds - S n))
                (logged w (CallFindLocal (pushSequenceId ident h))) Hskips)
      as [w1 ->].
    by rewrite (retry_loop_fetch_fails _ _ _ _ _ _ _ _ _ _ Hfetch).
  - intros changes Hfetch Hkept Hbulk.
    rewrite getChanges_run, (cursor_of_read _ _ _ _ Hcursor).
    destruct (retry_loop_skips oracle coll h f bs true since later n
                (S (rounds - S n))
                (logged w (CallFindLocal (pushSequenceId ident h))) Hskips)
      as [w1 ->].
    rewrite (retry_loop_round _ _ _ _ _ _ _ _ _ _ Hfetch).
    unfold use_results.
    destruct (filteredResults oracle h f changes) as [| kept rest] eqn:Hsel; [done |].
    replace ((0 <? Z.of_nat (length (kept :: rest))) && true) with true
      by (symmetry; rewrite andb_true_r; apply Z.ltb_lt; cbn [length]; lia).
    by rewrite Hbulk.
Qed.

Lemma store_failures_propagate_witness :
  fst (getChangesSinceLastPushSequence "rxdbreplicationgraphql" sample_oracle
         failing_collection 5 "endpoint" "last_pulled_rev" 10 false empty_world)
    = Thrown (StoreFailure "closed").
Proof.
  apply (store_failures_propagate "rxdbreplicationgraphql" sample_oracle
           failing_collection 5 1 "endpoint" "last_pulled_rev" 10 false empty_world
           (JNum 0) (JNum 10) (StoreFailure "closed")).
  - reflexivity.
  - eapply skips_on; [vm_compute; reflexivity | vm_compute; reflexivity
                     | vm_compute; reflexivity | apply skips_here].
  - lia.
  - reflexivity.
Defined.

(** X11. With [syncRevisions], when the filter keeps rows of the first
    window and [bulkGet] answers with a result whose first document is not
    an [ok] body, the call throws a [TypeError]. *)
Theorem refresh_without_body_throws (ident : string)
    (oracle : string -> JsVal -> bool)
    (coll : RxCollection) (rounds : nat) (h f : string) (bs : Z) (w : World)
    (since : JsVal) (changes : PouchdbChangesResult)
    (bulkGetDocs : list BulkGetResult) (result : BulkGetResult) :
  fst (getLastPushSequence ident h w) = Returned since ->
  pouch_changes coll since bs = inr changes ->
  filteredResults oracle h f changes <> [] ->
  pouch_bulkGet coll (map docsSearch (filteredResults oracle h f changes))
    = inr bulkGetDocs ->
  result ∈ bulkGetDocs ->
  lacks_ok result ->
  (1 <= rounds)%nat ->
  fst (getChangesSinceLastPushSequence ident oracle coll rounds h f bs true w)
    = Thrown TypeError.
Proof.
  intros Hcursor Hfetch Hkept Hbulk Hin Hlacks Hrounds.
  destruct rounds as [| rounds]; [lia |].
  rewrite getChanges_run, (cursor_of_read _ _ _ _ Hcursor).
  rewrite (retry_loop_round _ _ _ _ _ _ _ _ _ _ Hfetch).
  unfold use_results.
  destruct (filteredResults oracle h f changes) as [| kept rest] eqn:Hsel; [done |].
  replace ((0 <? Z.of_nat (length (kept :: rest))) && true) with true
    by (symmetry; rewrite andb_true_r; apply Z.ltb_lt; cbn [length]; lia).
  by rewrite Hbulk, (map_throwing_lacks _ _ Hin Hlacks).
Qed.

Lemma refresh_without_body_throws_witness :
  fst (getChangesSinceLastPushSequence "rxdbreplicationgraphql" sample_oracle
         {| pouch_changes := feed_changes sample_feed;
            pouch_bulkGet := feed_bulkGet (drop 1 sample_feed);
            _handleFromPouch := fun d => d;
            primaryPath := "name" |}
         1 "endpoint" "last_pulled_rev" 10 true empty_world)
    = Thrown TypeError.
Proof.
  apply (refresh_without_body_throws "rxdbreplicationgraphql" sample_oracle
           {| pouch_changes := feed_changes sample_feed;
              pouch_bulkGet := feed_bulkGet (drop 1 sample_feed);
              _handleFromPouch := fun d => d;
              primaryPath := "name" |}
           1 "endpoint" "last_pulled_rev" 10 empty_world (JNum 0)
           {| results := sample_feed; last_seq := 4 |}
           [ {| bulk_id := "alice"; bulk_docs := [BulkError (JStr "not_found")] |};
             {| bulk_id := "carol";
                bulk_docs := [BulkOk (row_doc (change_row 3 "carol" "1-c" "age" (JNum 25)))] |} ]
           {| bulk_id := "alice"; bulk_docs := [BulkError (JStr "not_found")] |}).
  - reflexivity.
  - vm_compute. reflexivity.
  - vm_compute. discriminate.
  - vm_compute. reflexivity.
  - apply list_elem_of_here.
  - intros ok. cbn. discriminate.
  - lia.
Defined.

(** ** Edges of the retry loop *)

(** X12. With [syncRevisions] the loop tests the refreshed rows, not the
    kept ones: when the first window is full, the filter keeps rows of it
    and [bulkGet] answers with no result at all, the loop goes on from the
    window's [last_seq]; if the next window is not full and the filter
    keeps none of its rows, the call returns the empty batch with that
    window's [last_seq], and the rows kept of the first window are in no
    batch. *)
Theorem empty_refresh_skips_kept_rows (ident : string)
    (oracle : string -> JsVal -> bool)
    (coll : RxCollection) (rounds : nat) (h f : string) (bs : Z) (w : World)
    (since : JsVal) (changes next : PouchdbChangesResult) :
  fst (getLastPushSequence ident h w) = Returned since ->
  pouch_changes coll since bs = inr changes ->
  Z.of_nat (length (results changes)) = bs ->
  filteredResults oracle h f changes <> [] ->
  pouch_bulkGet coll (map docsSearch (filteredResults oracle h f changes)) = inr [] ->
  pouch_changes coll (JNum (last_seq changes)) bs = inr next ->
  Z.of_nat (length (results next)) <> bs ->
  filteredResults oracle h f next = [] ->
  (2 <= rounds)%nat ->
  fst (getChangesSinceLastPushSequence ident oracle coll rounds h f bs true w)
    = Returned {| results := []; last_seq := last_seq next |}.
Proof.
  intros Hcursor Hfetch Hfull Hkept Hbulk Hnext Hshort Hnone Hrounds.
  destruct rounds as [| [| rounds]]; try lia.
  rewrite getChanges_run, (cursor_of_read _ _ _ _ Hcursor).
  rewrite (retry_loop_round _ _ _ _ _ _ _ _ _ _ Hfetch).
  assert (use_results coll true (filteredResults oracle h f changes) = inr []) as ->.
  { unfold use_results.
    destruct (filteredResults oracle h f changes) as [| kept rest]; [done |].
    replace ((0 <? Z.of_nat (length (kept :: rest))) && true) with true
      by (symmetry; rewrite andb_true_r; apply Z.ltb_lt; cbn [length]; lia).
    by rewrite Hbulk. }
  unfold retries at 1. cbn [length].
  replace (Z.of_nat (length (results changes)) =? bs) with true
    by (symmetry; by apply Z.eqb_eq).
  cbn [Z.of_nat Z.eqb andb].
  rewrite (retry_loop_round _ _ _ _ _ _ _ _ _ _ Hnext), Hnone, use_results_nil.
  unfold retries.
  replace (Z.of_nat (length (results next)) =? bs) with false
    by (symmetry; by apply Z.eqb_neq).
  by rewrite andb_false_r.
Qed.

Lemma empty_refresh_skips_kept_rows_witness :
  fst (getChangesSinceLastPushSequence "rxdbreplicationgraphql" sample_oracle
         forgetful_collection 2 "endpoint" "last_pulled_rev" 3 true empty_world)
    = Returned {| results := []; last_seq := 4 |}.
Proof.
  apply (empty_refresh_skips_kept_rows "rxdbreplicationgraphql" sample_oracle
           forgetful_collection 2 "endpoint" "last_pulled_rev" 3 empty_world
           (JNum 0)
           {| results := take 3 sample_feed; last_seq := 3 |}
           {| results := drop 3 sample_feed; last_seq := 4 |}).
  - reflexivity.
  - vm_compute. reflexivity.
  - reflexivity.
  - vm_compute. discriminate.
  - reflexivity.
  - vm_compute. reflexivity.
  - vm_compute. discriminate.
  - vm_compute. reflexivity.
  - lia.
Defined.

(** X13. The loop has no bound of its own: on a feed that answers every
    fetch with a full window of which the filter keeps nothing, the call
    has not settled after any number of rounds. A feed whose [last_seq]
    does not move past a window of pulled rows is such a feed. *)
Theorem full_filtered_windows_never_settle (ident : string)
    (oracle : string -> JsVal -> bool)
    (coll : RxCollection) (h f : string) (bs : Z) (sr : bool) :
  (forall since,
      exists changes,
        pouch_changes coll since bs = inr changes /\
        Z.of_nat (length (results changes)) = bs /\
        Forall (fun change => pushable oracle h f change <> true) (results changes)) ->
  forall rounds w,
    fst (getChangesSinceLastPushSequence ident oracle coll rounds h f bs sr w)
      = Pending.
Proof.
  intros Hfeed rounds w. rewrite getChanges_run.
  assert (forall since w0,
             fst (retry_loop oracle coll rounds h f bs sr since w0) = Pending) as Hloop.
  { induction rounds as [| rounds IH]; intros since w0; [done |].
    destruct (Hfeed since) as (changes & Hfetch & Hfull & Hnone).
    rewrite (retry_loop_round_filtered _ _ _ _ _ _ _ _ _ _ Hfetch Hnone).
    replace (Z.of_nat (length (results changes)) =? bs) with true
      by (symmetry; by apply Z.eqb_eq).
    apply IH. }
  specialize (Hloop (cursor_of ident h w)
                (logged w (CallFindLocal (pushSequenceId ident h)))).
  by destruct (retry_loop _ _ _ _ _ _ _ _ _) as [[changes | e |] w1].
Qed.

Lemma full_filtered_windows_never_settle_witness :
  fst (getChangesSinceLastPushSequence "rxdbreplicationgraphql" sample_oracle
         stuck_collection 1000 "endpoint" "last_pulled_rev" 1 false empty_world)
    = Pending.
Proof.
  apply (full_filtered_windows_never_settle "rxdbreplicationgraphql" sample_oracle
           stuck_collection "endpoint" "last_pulled_rev" 1 false).
  intros since.
  exists {| results := [change_row 2 "bob" "2-b-pull" "age" (JNum 41)];
            last_seq := 2 |}.
  split; [reflexivity |]. split; [reflexivity |].
  constructor; [| constructor]. vm_compute. discriminate.
Defined.

(** ** Batches after the checkpoint *)

Lemma seq_of_fromPouch coll change : seq_of (fromPouch coll change) = seq_of change.
Proof. reflexivity. Qed.

Lemma feed_window_after feed cursor bs changes :
  feed_changes feed (JNum cursor) bs = inr changes ->
  Forall (fun change => cursor < seq_of change) (results changes) /\
  cursor <= last_seq changes.
Proof.
  unfold feed_changes. intros [= <-]. cbn [results last_seq].
  assert (Forall (fun change => cursor < seq_of change)
            (take (Z.to_nat bs) (filter (fun change => cursor < seq_of change) feed)))
    as Hall.
  { apply Forall_take, Forall_forall. intros change Hin.
    by apply (list_elem_of_filter (fun change => cursor < seq_of change)) in Hin as [? _]. }
  split; [done |].
  destruct (last _) as [change |] eqn:Hlast; cbn; [| lia].
  apply last_Some_elem_of in Hlast.
  rewrite Forall_forall in Hall. specialize (Hall _ Hlast). lia.
Qed.

Lemma retry_loop_after_cursor oracle coll feed rounds h f bs floor cursor w changes' w' :
  pouch_changes coll = feed_changes feed ->
  floor <= cursor ->
  retry_loop oracle coll rounds h f bs false (JNum cursor) w = (Returned changes', w') ->
  Forall (fun change => floor < seq_of change) (results changes').
Proof.
  intros Hcoll. revert cursor w.
  induction rounds as [| rounds IH]; intros cursor w Hfloor; [discriminate |].
  destruct (feed_changes feed (JNum cursor) bs) as [e | changes] eqn:Hfeed;
    [discriminate |].
  assert (pouch_changes coll (JNum cursor) bs = inr changes) as Hfetch
    by by rewrite Hcoll.
  destruct (feed_window_after _ _ _ _ Hfeed) as [Hwindow Hlast].
  rewrite (retry_loop_round _ _ _ _ _ _ _ _ _ _ Hfetch).
  unfold use_results. rewrite andb_false_r.
  destruct (retries _ _ _).
  - apply IH. lia.
  - intros [= <- <-]. cbn [results].
    apply Forall_forall. intros change Hin.
    apply filteredResults_elem in Hin as [_ Hin].
    rewrite Forall_forall in Hwindow. specialize (Hwindow _ Hin). lia.
Qed.

(** X14. On a store whose feed gives the rows strictly after the cursor, a
    batch selected without refresh holds no record at or before the stored
    push sequence: what [setLastPushSequence] has committed is not returned
    again. *)
Theorem committed_rows_not_returned (ident : string)
    (oracle : string -> JsVal -> bool)
    (coll : RxCollection) (feed : list PouchChangeRow) (rounds : nat)
    (h f : string) (bs : Z) (committed : Z) (w w' : World)
    (batch : PouchdbChangesResult) :
  pouch_changes coll = feed_changes feed ->
  fst (getLastPushSequence ident h w) = Returned (JNum committed) ->
  getChangesSinceLastPushSequence ident oracle coll rounds h f bs false w
    = (Returned batch, w') ->
  forall r, r ∈ results batch -> committed < seq_of r.
Proof.
  intros Hcoll Hcursor Hrun r Hr.
  rewrite getChanges_run, (cursor_of_read _ _ _ _ Hcursor) in Hrun.
  destruct (retry_loop _ _ _ _ _ _ _ _ _) as [[changes' | e |] w1] eqn:Hloop;
    try discriminate.
  injection Hrun as <- <-. cbn [results] in Hr.
  apply elem_of_map in Hr as (change & -> & Hin).
  rewrite seq_of_fromPouch.
  pose proof (retry_loop_after_cursor _ _ _ _ _ _ _ committed _ _ _ _
                Hcoll (Z.le_refl committed) Hloop) as Hall.
  rewrite Forall_forall in Hall. by apply Hall.
Qed.

Lemma committed_rows_not_returned_witness :
  2 < seq_of (fromPouch sample_collection (change_row 3 "carol" "1-c" "age" (JNum 25))).
Proof.
  apply (committed_rows_not_returned "rxdbreplicationgraphql" sample_oracle
           sample_collection sample_feed 1 "endpoint" "last_pulled_rev" 10 2
           (snd (setLastPushSequence "rxdbreplicationgraphql" "endpoint" (JNum 2)
                   empty_world))
           (snd (getChangesSinceLastPushSequence "rxdbreplicationgraphql"
                   sample_oracle sample_collection 1 "endpoint" "last_pulled_rev" 10
                   false
                   (snd (setLastPushSequence "rxdbreplicationgraphql" "endpoint"
                           (JNum 2) empty_world))))
           {| results :=
                [fromPouch sample_collection
                   (change_row 3 "carol" "1-c" "age" (JNum 25))];
              last_seq := 4 |}).
  - reflexivity.
  - vm_compute. reflexivity.
  - vm_compute. reflexivity.
  - apply list_elem_of_here.
Defined.

Lemma retry_loop_last_seq oracle coll rounds h f bs sr floor cursor w changes' w' :
  (forall cursor0 changes,
      pouch_changes coll (JNum cursor0) bs = inr changes ->
      cursor0 <= last_seq changes) ->
  floor <= cursor ->
  retry_loop oracle coll rounds h f bs sr (JNum cursor) w = (Returned changes', w') ->
  floor <= last_seq changes'.
Proof.
  intros Hfeed. revert cursor w.
  induction rounds as [| rounds IH]; intros cursor w Hfloor; [discriminate |].
  destruct (pouch_changes coll (JNum cursor) bs) as [e | changes] eqn:Hfetch.
  - by rewrite (retry_loop_fetch_fails _ _ _ _ _ _ _ _ _ _ Hfetch).
  - pose proof (Hfeed _ _ Hfetch) as Hlast.
    rewrite (retry_loop_round _ _ _ _ _ _ _ _ _ _ Hfetch).
    destruct (use_results _ _ _) as [e | useResults]; [discriminate |].
    destruct (retries _ _ _).
    + apply IH. lia.
    + intros [= <- <-]. cbn [last_seq]. lia.
Qed.

(** X15. When the feed never answers with a [last_seq] below the cursor it
    was asked with, the [last_seq] of a returned batch is not below the
    stored push sequence: a caller that hands it to [setLastPushSequence]
    does not move the checkpoint back. *)
Theorem last_seq_not_below_cursor (ident : string)
    (oracle : string -> JsVal -> bool)
    (coll : RxCollection) (rounds : nat) (h f : string) (bs : Z) (sr : bool)
    (stored : Z) (w w' : World) (batch : PouchdbChangesResult) :
  (forall cursor changes,
      pouch_changes coll (JNum cursor) bs = inr changes ->
      cursor <= last_seq changes) ->
  fst (getLastPushSequence ident h w) = Returned (JNum stored) ->
  getChangesSinceLastPushSequence ident oracle coll rounds h f bs sr w
    = (Returned batch, w') ->
  stored <= last_seq batch /\
  sets_ascend (stored_sequence ident h w') [DoSet (last_seq batch)].
Proof.
  intros Hfeed Hcursor Hrun.
  assert (stored <= last_seq batch) as Hle.
  { rewrite getChanges_run, (cursor_of_read _ _ _ _ Hcursor) in Hrun.
    destruct (retry_loop _ _ _ _ _ _ _ _ _) as [[changes' | e |] w1] eqn:Hloop;
      try discriminate.
    injection Hrun as <- <-. cbn [last_seq].
    by eapply (retry_loop_last_seq _ _ _ _ _ _ _ stored stored). }
  split; [done |]. cbn [sets_ascend]. split; [| done].
  destruct (getChanges_reads ident oracle coll rounds h f bs sr w) as [Hstore _].
  rewrite Hrun in Hstore. cbn [snd] in Hstore.
  unfold stored_sequence. rewrite getLastPushSequence_run in *. cbn [fst] in *.
  rewrite Hstore. injection Hcursor as ->. done.
Qed.

Lemma list_feed_last_seq coll feed bs :
  pouch_changes coll = feed_changes feed ->
  forall cursor changes,
    pouch_changes coll (JNum cursor) bs = inr changes ->
    cursor <= last_seq changes.
Proof.
  intros Hcoll cursor changes Hfetch. rewrite Hcoll in Hfetch.
  by destruct (feed_window_after _ _ _ _ Hfetch).
Qed.

Lemma last_seq_not_below_cursor_witness :
  0 <= last_seq sample_batch /\
  sets_ascend
    (stored_sequence "rxdbreplicationgraphql" "endpoint"
       (snd (getChangesSinceLastPushSequence "rxdbreplicationgraphql"
               sample_oracle sample_collection 1 "endpoint" "last_pulled_rev" 10
               false empty_world)))
    [DoSet (last_seq sample_batch)].
Proof.
  apply (last_seq_not_below_cursor "rxdbreplicationgraphql" sample_oracle
           sample_collection 1 "endpoint" "last_pulled_rev" 10 false 0 empty_world
           (snd (getChangesSinceLastPushSequence "rxdbreplicationgraphql"
                   sample_oracle sample_collection 1 "endpoint" "last_pulled_rev"
                   10 false empty_world))
           sample_batch).
  - apply (list_feed_last_seq sample_collection sample_feed 10). reflexivity.
  - reflexivity.
  - vm_compute. reflexivity.
Defined.

(** ** No pushable change is passed over *)

Lemma StronglySorted_filter {A} (R : A -> A -> Prop) (P : A -> Prop)
    `{forall x, Decision (P x)} (l : list A) :
  StronglySorted R l -> StronglySorted R (filter P l).
Proof.
  induction 1 as [| a l Hsorted IH Hall]; [constructor |].
  rewrite filter_cons. destruct (decide (P a)); [| done].
  constructor; [done |].
  apply Forall_forall. intros x Hx.
  apply (list_elem_of_filter P) in Hx as [_ Hx].
  rewrite Forall_forall in Hall. by apply Hall.
Qed.

Lemma StronglySorted_across {A} (R : A -> A -> Prop) (l1 l2 : list A) x1 x2 :
  StronglySorted R (l1 ++ l2) -> x1 ∈ l1 -> x2 ∈ l2 -> R x1 x2.
Proof.
  induction l1 as [| a l1 IH]; intros Hsorted H1 H2.
  - by apply elem_of_nil in H1.
  - cbn in Hsorted. inversion Hsorted as [| ? ? Htail Hall]; subst.
    apply elem_of_cons in H1 as [-> | H1].
    + rewrite Forall_forall in Hall. apply Hall.
      apply elem_of_app. by right.
    + by apply IH.
Qed.

(** On an ordered feed a window holds every row between the cursor and its
    [last_seq]. *)
Lemma window_complete feed cursor bs changes change :
  StronglySorted feed_order feed ->
  feed_changes feed (JNum cursor) bs = inr changes ->
  change ∈ feed ->
  cursor < seq_of change ->
  seq_of change <= last_seq changes ->
  change ∈ results changes.
Proof.
  intros Hsorted Hfetch Hin Hafter Hbefore.
  unfold feed_changes in Hfetch. injection Hfetch as <-.
  cbn [results last_seq] in *.
  set (rows := filter (fun change => cursor < seq_of change) feed) in *.
  assert (change ∈ rows) as Hrow
    by by apply (list_elem_of_filter (fun change => cursor < seq_of change)).
  assert (StronglySorted feed_order rows) as Hrows by by apply StronglySorted_filter.
  rewrite <- (take_drop (Z.to_nat bs) rows) in Hrow, Hrows.
  apply elem_of_app in Hrow as [Hrow | Hrow]; [done |].
  destruct (last (take (Z.to_nat bs) rows)) as [x |] eqn:Hlast; cbn in Hbefore.
  - apply last_Some_elem_of in Hlast.
    pose proof (StronglySorted_across _ _ _ _ _ Hrows Hlast Hrow) as Hlt.
    unfold feed_order in Hlt. lia.
  - lia.
Qed.

Lemma retry_loop_complete oracle coll feed rounds h f bs cursor w changes' w' change :
  pouch_changes coll = feed_changes feed ->
  StronglySorted feed_order feed ->
  retry_loop oracle coll rounds h f bs false (JNum cursor) w = (Returned changes', w') ->
  change ∈ feed ->
  cursor < seq_of change ->
  seq_of change <= last_seq changes' ->
  pushable oracle h f change = true ->
  change ∈ results changes'.
Proof.
  intros Hcoll Hsorted. revert cursor w.
  induction rounds as [| rounds IH]; intros cursor w Hrun Hin Hafter Hbefore Hpush;
    [discriminate |].
  destruct (feed_changes feed (JNum cursor) bs) as [e | changes] eqn:Hfeed;
    [discriminate |].
  assert (pouch_changes coll (JNum cursor) bs = inr changes) as Hfetch
    by by rewrite Hcoll.
  rewrite (retry_loop_round _ _ _ _ _ _ _ _ _ _ Hfetch) in Hrun.
  unfold use_results in Hrun. rewrite andb_false_r in Hrun.
  destruct (retries bs changes (filteredResults oracle h f changes)) eqn:Hretry.
  - destruct (Z.le_gt_cases (seq_of change) (last_seq changes)) as [Hold | Hnew].
    + exfalso.
      pose proof (window_complete _ _ _ _ _ Hsorted Hfeed Hin Hafter Hold) as Hwin.
      assert (change ∈ filteredResults oracle h f changes) as Hkept
        by by apply filteredResults_elem.
      unfold retries in Hretry. apply andb_true_iff in Hretry as [Hnone _].
      destruct (filteredResults oracle h f changes); [by apply elem_of_nil in Hkept |].
      cbn in Hnone. discriminate.
    + eapply IH; [exact Hrun | done | lia | done | done].
  - injection Hrun as <- <-. cbn [results last_seq] in *.
    apply filteredResults_elem. split; [done |].
    by eapply window_complete.
Qed.

(** X16. Without refresh no pushable change is passed over: on a store whose
    feed is ordered by sequence and gives the rows strictly after the
    cursor, every change of the feed after the stored push sequence and up
    to the returned [last_seq] that the filter keeps is in the returned
    batch. *)
Theorem no_pushable_change_skipped (ident : string)
    (oracle : string -> JsVal -> bool)
    (coll : RxCollection) (feed : list PouchChangeRow) (rounds : nat)
    (h f : string) (bs : Z) (stored : Z) (w w' : World)
    (batch : PouchdbChangesResult) (change : PouchChangeRow) :
  pouch_changes coll = feed_changes feed ->
  StronglySorted feed_order feed ->
  fst (getLastPushSequence ident h w) = Returned (JNum stored) ->
  getChangesSinceLastPushSequence ident oracle coll rounds h f bs false w
    = (Returned batch, w') ->
  change ∈ feed ->
  stored < seq_of change ->
  seq_of change <= last_seq batch ->
  pushable oracle h f change = true ->
  fromPouch coll change ∈ results batch.
Proof.
  intros Hcoll Hsorted Hcursor Hrun Hin Hafter Hbefore Hpush.
  rewrite getChanges_run, (cursor_of_read _ _ _ _ Hcursor) in Hrun.
  destruct (retry_loop _ _ _ _ _ _ _ _ _) as [[changes' | e |] w1] eqn:Hloop;
    try discriminate.
  injection Hrun as <- <-. cbn [results last_seq] in *.
  apply elem_of_map. exists change. split; [done |].
  by eapply retry_loop_complete.
Qed.

Lemma no_pushable_change_skipped_witness :
  fromPouch sample_collection (change_row 3 "carol" "1-c" "age" (JNum 25))
    ∈ results sample_batch.
Proof.
  apply (no_pushable_change_skipped "rxdbreplicationgraphql" sample_oracle
           sample_collection sample_feed 1 "endpoint" "last_pulled_rev" 10 0
           empty_world
           (snd (getChangesSinceLastPushSequence "rxdbreplicationgraphql"
                   sample_oracle sample_collection 1 "endpoint" "last_pulled_rev"
                   10 false empty_world))
           sample_batch
           (change_row 3 "carol" "1-c" "age" (JNum 25))).
  - reflexivity.
  - unfold sample_feed.
    repeat (apply SSorted_cons;
            [| repeat (constructor; [vm_compute; reflexivity |]); constructor]).
    apply SSorted_nil.
  - reflexivity.
  - vm_compute. reflexivity.
  - apply list_elem_of_further, list_elem_of_further, list_elem_of_here.
  - reflexivity.
  - vm_compute. discriminate.
  - reflexivity.
Defined.
